(** * Capsule Telegram bot: account provisioning, wallet display and guided
    transfers

    A shallow embedding of [src/utils/callbacks.ts] and [src/utils/wallet.ts]
    (the dual-chain revision) together with the Mongoose schema of the
    dual-chain [models.ts].  Handlers are written in a small
    state-and-exception monad over a [World] that holds the durable user
    collection, the messages still to be delivered to a conversation, and the
    trace of every call a handler makes to a collaborator (store, custody
    provider, chain RPC, chat transport, console). *)

From Stdlib Require Import ZArith QArith Qabs Qround List String Ascii Bool Lia.
From Stdlib Require Qcanon.
From stdpp Require Import base option list gmap.
Import ListNotations.

#[local] Open Scope Z_scope.
#[local] Open Scope list_scope.

(** ** JavaScript strings

    A JavaScript string is a sequence of UTF-16 code units.  [js] embeds an
    ASCII literal. *)

Abbreviation jsstring := (list N).

Definition js (s : string) : jsstring :=
  map N_of_ascii (list_ascii_of_string s).

(** [!s] for a value of type [string | undefined]. *)
Definition falsy (s : option jsstring) : bool :=
  match s with
  | None => true
  | Some [] => true
  | Some (_ :: _) => false
  end.

(** [`${s}`] for a value of type [string | undefined]. *)
Definition template (s : option jsstring) : jsstring :=
  match s with
  | Some s => s
  | None => js "undefined"
  end.

(** [a || b] on [string | undefined]. *)
Definition or_else (a b : option jsstring) : option jsstring :=
  if falsy a then b else a.

(** Decimal digits of a natural number, most significant first. *)
Fixpoint digits_fuel (fuel : nat) (n : N) (acc : jsstring) : jsstring :=
  match fuel with
  | O => acc
  | S fuel =>
      let acc' := (48 + n mod 10)%N :: acc in
      if (n / 10 =? 0)%N then acc' else digits_fuel fuel (n / 10)%N acc'
  end.

Definition digits (n : N) : jsstring :=
  digits_fuel (S (N.to_nat (N.log2 n))) n [].

(** [z.toString()] for an integer-valued number or a bigint. *)
Definition Z_toString (z : Z) : jsstring :=
  if z <? 0 then 45%N :: digits (Z.to_N (- z)) else digits (Z.to_N z).

(** ** JavaScript numbers

    A Number is NaN, an infinity, or a finite double, kept as the rational
    it denotes. *)

Inductive number :=
| NaN
| Infinity (negative : bool)
| Num (q : Q).

Definition isNaN (x : number) : bool :=
  match x with NaN => true | _ => false end.

(** [x <= 0]. *)
Definition num_le0 (x : number) : bool :=
  match x with
  | NaN => false
  | Infinity negative => negative
  | Num q => Qle_bool q 0
  end.

(** Rounding of a rational to the nearest binary64 value, ties to even
    (the rounding every arithmetic operator applies to its exact result).
    [floor_log2 p d] is the exponent [e] with [2^e <= p/d < 2^(e+1)]. *)
Definition floor_log2 (p d : Z) : Z :=
  let k := Z.log2 p - Z.log2 d in
  let ge := if 0 <=? k then d * 2 ^ k <=? p else d <=? p * 2 ^ (- k) in
  if ge then k else k - 1.

Definition round_half_even (num den : Z) : Z :=
  let fl := num / den in
  let r := num mod den in
  match 2 * r ?= den with
  | Lt => fl
  | Gt => fl + 1
  | Eq => if Z.even fl then fl else fl + 1
  end.

Definition RN64 (q : Q) : number :=
  let p := Z.abs (Qnum q) in
  let d := Z.pos (Qden q) in
  if p =? 0 then Num 0
  else
    let e := floor_log2 p d in
    let E := Z.max e (-1022) - 52 in
    let m := if 0 <=? E then round_half_even p (d * 2 ^ E)
             else round_half_even (p * 2 ^ (- E)) d in
    let negative := Qnum q <? 0 in
    if (0 <=? E) && (2 ^ 1024 <=? m * 2 ^ E) then Infinity negative
    else
      let mag := if 0 <=? E then inject_Z (m * 2 ^ E)
                 else Qmake m (Z.to_pos (2 ^ (- E))) in
      Num (Qred (if negative then - mag else mag)).

(** The arithmetic operators.  The sign of a zero is not represented: no
    operation of this program observes it. *)
Definition Qneg (q : Q) : bool := Qnum q <? 0.
Definition Qzero (q : Q) : bool := Qnum q =? 0.

Definition num_mul (x y : number) : number :=
  match x, y with
  | NaN, _ | _, NaN => NaN
  | Infinity s, Infinity t => Infinity (xorb s t)
  | Infinity s, Num q | Num q, Infinity s =>
      if Qzero q then NaN else Infinity (xorb s (Qneg q))
  | Num a, Num b => RN64 (a * b)
  end.

Definition num_div (x y : number) : number :=
  match x, y with
  | NaN, _ | _, NaN => NaN
  | Infinity _, Infinity _ => NaN
  | Infinity s, Num q => Infinity (xorb s (Qneg q))
  | Num _, Infinity _ => Num 0
  | Num a, Num b =>
      if Qzero b then (if Qzero a then NaN else Infinity (Qneg a))
      else RN64 (a / b)
  end.

(** [10 ** k] for the two literals of the program ([10 ** 9], [10 ** 18]),
    both exactly representable. *)
Definition pow10 (k : Z) : number := Num (inject_Z (10 ^ k)).

(** A Number received from a JSON-RPC reply that carries an integer. *)
Definition num_of_Z (n : Z) : number := RN64 (inject_Z n).


(** ** Data model (the dual-chain [models.ts]) *)

Record User := mkUser {
  telegramId : jsstring;
  username : jsstring;
  evmAddress : jsstring;
  evmUserShare : jsstring;
  solanaAddress : jsstring;
  solanaUserShare : jsstring;
}.

(** Every path of [userSchema] is [required: true]; on a String path the
    required validator rejects the empty string. *)
Definition userSchema_valid (u : User) : bool :=
  negb (falsy (Some (telegramId u))) && negb (falsy (Some (username u)))
  && negb (falsy (Some (evmAddress u))) && negb (falsy (Some (evmUserShare u)))
  && negb (falsy (Some (solanaAddress u)))
  && negb (falsy (Some (solanaUserShare u))).

Inductive WalletType := EVM | SOLANA.

(** What [createWalletPreGen] resolves to, with the share that
    [capsule.getUserShare()] then reads. *)
Record Pregen := mkPregen {
  wallet_address : option jsstring;
  userShare : jsstring;
}.

Record PublicKey := mkPublicKey { toBytes : list N }.

Record error := Error { error_message : string }.

Definition result (A : Type) : Type := A + error.

Record From := mkFrom { id : Z; from_username : option jsstring }.
Record BotContext := mkContext { ctx_from : option From }.

(** ** Messages to the user

    One constructor per message text of [callbacks.ts]; the arguments are
    the interpolated values. *)
Inductive message :=
| MsgTryAgain            (* An error occurred. Please try again. *)
| MsgAlreadyRegistered   (* Looks like you are already registered! *)
| MsgGenerating          (* Generating your wallets...(this may take a few seconds) *)
| MsgCreateFailed        (* Failed to create an account. Please try again. *)
| MsgCreated             (* Your Ethereum and Solana wallets have been created! *)
| MsgCreateError         (* An error occurred while creating your account. Please try again. *)
| MsgNoAccount           (* No account found for this user. *)
| MsgWallets (evm sol : jsstring)       (* Your Wallets / Ethereum Address / Solana Address *)
| MsgEthBalance (formatted : jsstring)  (* Ethereum Balance: ... ETH *)
| MsgSolBalance (formatted : jsstring)  (* Solana Balance: ... SOL *)
| MsgBalancesError       (* An error occurred while fetching your wallet balances. *)
| MsgRegisterFirst       (* No account found for this user. Please register first. *)
| MsgAskAddress (chain : WalletType)    (* Kindly provide the wallet address where you'd like to send ...: *)
| MsgInvalidAddress (chain : WalletType)  (* Invalid ... address. Please provide a valid address. *)
| MsgAskAmount (chain : WalletType)     (* How much ... would you like to send? *)
| MsgSending (chain : WalletType) (amount dest : jsstring)  (* Sending ... to ...... *)
| MsgInvalidAmount (chain : WalletType) (* Invalid amount. Please provide a valid amount of ... to send. *)
| MsgSent (chain : WalletType) (amount dest tx : jsstring)  (* Successfully sent ... Transaction Hash: ... *)
| MsgSendFailed (chain : WalletType).   (* Failed to send (SOL) transaction. Please try again. *)

(** ** Calls to collaborators

    Every call a handler makes is recorded, in order, with the answer it
    got.  [ESendTransaction] and [ESendSolanaTransaction] mark the entry into
    the two executor functions of [wallet.ts]; [ESign] and [ESolanaSign] are
    the signer's sign-and-broadcast. *)
Inductive event :=
| EFindOne (telegramId : jsstring) (found : result (option User))
| ESave (u : User) (saved : result unit)
| EReply (m : message)
| EEditMessageText (message_id : nat) (m : message)
| EWaitFor (text : option jsstring)
| ECreateWalletPreGen (type : WalletType) (identifier : jsstring)
                      (created : result Pregen)
| EGetBalance (address : jsstring) (wei : result Z)
| ESolanaGetBalance (key : PublicKey) (lamports : result Z)
| ESendTransaction (user : User) (amountInETH receiverAddress : jsstring)
| ESign (share to : jsstring) (value : Z) (tx : result jsstring)
| ESendSolanaTransaction (user : User) (destAddress : jsstring)
                         (amountInSOL : number)
| EGetLatestBlockhash (blockhash : result jsstring)
| ESolanaSign (share : jsstring) (fromPubkey toPubkey : PublicKey)
              (lamports : number) (tx : result jsstring)
| EConsoleLog (label : string)
| EConsoleError (label : string) (e : error).

(** ** The environment

    The collaborators and the library functions the handlers call.  An
    answer of a remote collaborator may depend on the moment of the call
    (the number of calls made before it). *)
Abbreviation Store := (gmap jsstring User).

Record Env := mkEnv {
  (* process.env.DOMAIN *)
  DOMAIN : option jsstring;
  (* MongoDB: a failing connection, and what other sessions write while a
     conversation is suspended *)
  db_findOne_error : nat -> option error;
  db_save_error : nat -> option error;
  db_meanwhile : nat -> Store -> Store;
  (* Capsule custody provider *)
  capsule_createWalletPreGen : nat -> WalletType -> jsstring -> result Pregen;
  capsule_sendTransaction : nat -> jsstring -> jsstring -> Z -> result jsstring;
  capsule_solana_sendTransaction :
    nat -> jsstring -> PublicKey -> PublicKey -> number -> result jsstring;
  (* chain RPC: Base through viem, Solana devnet through web3.js *)
  base_getBalance : nat -> jsstring -> result Z;
  solana_getBalance : nat -> PublicKey -> result Z;
  solana_getLatestBlockhash : nat -> result jsstring;
  (* viem's isAddress; web3.js: new PublicKey(string) and the curve test *)
  isAddress : jsstring -> bool;
  PublicKey_decode : jsstring -> result PublicKey;
  isOnCurve : PublicKey -> bool;
  (* built-ins: parseFloat, Number, and Number.prototype.toString for the
     exponential notation toFixed falls back to *)
  parseFloat : jsstring -> number;
  Number_ : jsstring -> number;
  Number_toString : number -> jsstring;
}.

(** ** The world and the handler monad *)

Record World := mkWorld {
  store : Store;           (* the users collection *)
  inbox : list jsstring;   (* text messages not yet delivered to the conversation *)
  trace : list event;      (* calls made so far, oldest first *)
}.

Inductive outcome (A : Type) :=
| Returned (a : A)     (* the promise resolves *)
| Thrown (e : error)   (* the promise rejects *)
| Suspended.           (* the conversation waits for a message that never comes *)
Arguments Returned {A} a.
Arguments Thrown {A} e.
Arguments Suspended {A}.

Definition M (A : Type) : Type := World -> outcome A * World.

#[global] Instance M_ret : MRet M := fun A a w => (Returned a, w).

#[global] Instance M_bind : MBind M := fun A B f c w =>
  match c w with
  | (Returned a, w') => f a w'
  | (Thrown e, w') => (Thrown e, w')
  | (Suspended, w') => (Suspended, w')
  end.

Definition throw {A} (e : error) : M A := fun w => (Thrown e, w).

Definition try_catch {A} (body : M A) (handler : error -> M A) : M A :=
  fun w =>
    match body w with
    | (Thrown e, w') => handler e w'
    | r => r
    end.

Notation "'try' body 'catch' e '=>' handler" :=
  (try_catch body (fun e => handler))
  (at level 10, body at level 200, e name, handler at level 200,
   only parsing).

Definition now (w : World) : nat := List.length (trace w).

Definition record (ev : event) (w : World) : World :=
  mkWorld (store w) (inbox w) (trace w ++ [ev]).

(** A call that answers without touching the store. *)
Definition call {A} (ev : result A -> event) (answer : nat -> result A) : M A :=
  fun w =>
    let r := answer (now w) in
    match r with
    | inl a => (Returned a, record (ev r) w)
    | inr e => (Thrown e, record (ev r) w)
    end.

Definition lift {A} (r : result A) : M A :=
  fun w =>
    match r with
    | inl a => (Returned a, w)
    | inr e => (Thrown e, w)
    end.

(** The string a value of type [string | undefined] holds when it is
    truthy. *)
Definition truthy (s : option jsstring) : option jsstring :=
  if falsy s then None else s.

(** [BigInt(x)]: a RangeError unless [x] is an integer. *)
Definition BigInt (x : number) : result Z :=
  match x with
  | Num q =>
      if (Z.pos (Qden (Qred q)) =? 1) then inl (Qnum (Qred q))
      else inr (Error "RangeError")
  | _ => inr (Error "RangeError")
  end.

(** [solana.LAMPORTS_PER_SOL]. *)
Definition LAMPORTS_PER_SOL : number := Num (inject_Z 1000000000).

(** *** Formatting

    [formatEther] is viem's [formatUnits] at 18 decimals: it works on the
    decimal digits of the bigint, without any division. *)
Definition padStart (len : nat) (c : N) (s : jsstring) : jsstring :=
  replicate (len - length s) c ++ s.

Fixpoint drop_zeros (s : jsstring) : jsstring :=
  match s with
  | c :: s' => if (c =? 48)%N then drop_zeros s' else s
  | [] => []
  end.

(** [fraction.replace(/(0+)$/, '')]. *)
Definition strip_trailing_zeros (s : jsstring) : jsstring :=
  rev (drop_zeros (rev s)).

Definition startsWith (prefix s : jsstring) : bool :=
  bool_decide (take (length prefix) s = prefix).

Definition formatUnits (value : Z) (decimals : nat) : jsstring :=
  let display := Z_toString value in
  let negative := startsWith (js "-") display in
  let display := if negative then drop 1 display else display in
  let display := padStart decimals 48%N display in
  let integer := take (length display - decimals) display in
  let fraction := drop (length display - decimals) display in
  let fraction := strip_trailing_zeros fraction in
  (if negative then js "-" else [])
  ++ (if falsy (Some integer) then js "0" else integer)
  ++ (if falsy (Some fraction) then [] else js "." ++ fraction).

Definition formatEther (wei : Z) : jsstring := formatUnits wei 18.

(** [x.toFixed(f)] (Number.prototype.toFixed): the integer [n] with
    [n / 10^f] nearest to [x], the larger one on a tie, printed with [f]
    digits after the point.  [toString] is what the built-in falls back to
    from [10^21] on. *)
Definition toFixed (toString : number -> jsstring) (x : number) (f : nat)
  : jsstring :=
  match x with
  | NaN => js "NaN"
  | Infinity negative => if negative then js "-Infinity" else js "Infinity"
  | Num q =>
      let s := if Qneg q then js "-" else [] in
      let x := Qabs q in
      if Qle_bool (inject_Z (10 ^ 21)) x then s ++ toString (Num x)
      else
        let n := Qfloor (x * inject_Z (10 ^ Z.of_nat f) + (1 # 2)) in
        let m := digits (Z.to_N n) in
        let m := if (length m <=? f)%nat
                 then replicate (f + 1 - length m) 48%N ++ m else m in
        let k := length m in
        s ++ (if (f =? 0)%nat then m
              else take (k - f) m ++ js "." ++ drop (k - f) m)
  end.

Section Handlers.

Context (env : Env).

(** *** The store: [User.findOne], [user.save] *)

Definition User_findOne (telegramId : jsstring) : M (option User) :=
  fun w =>
    call (EFindOne telegramId)
         (fun t => match db_findOne_error env t with
                   | Some e => inr e
                   | None => inl (store w !! telegramId)
                   end) w.

(** [save] validates the document against the schema, and the unique index
    on [telegramId] refuses a second document for the same identity. *)
Definition User_save (u : User) : M unit :=
  fun w =>
    let saved : result unit :=
      if negb (userSchema_valid u) then inr (Error "ValidationError")
      else
        match db_save_error env (now w) with
        | Some e => inr e
        | None =>
            match store w !! telegramId u with
            | Some _ => inr (Error "E11000 duplicate key")
            | None => inl tt
            end
        end in
    match saved with
    | inl _ =>
        (Returned tt,
         mkWorld (<[telegramId u := u]> (store w)) (inbox w)
                 (trace w ++ [ESave u saved]))
    | inr e => (Thrown e, record (ESave u saved) w)
    end.

(** *** The chat transport

    [ctx.reply] resolves to the sent message, identified here by its
    position in the trace; sending and editing are taken to succeed. *)
Definition ctx_reply (m : message) : M nat :=
  fun w => (Returned (now w), record (EReply m) w).

Definition editMessageText (message_id : nat) (m : message) : M unit :=
  fun w => (Returned tt, record (EEditMessageText message_id m) w).

(** [conversation.waitFor("message:text")] as the builder function sees it
    in one run: the handle gives it the next text it holds, or never
    returns when it holds none.  Between the call and its return other
    sessions may have written to the store.  How the plugin hands the texts
    of a session to the function, run after run, is [activation] and
    [session] below. *)
Definition conversation_waitFor : M jsstring :=
  fun w =>
    match inbox w with
    | [] => (Suspended, record (EWaitFor None) w)
    | text :: rest =>
        (Returned text,
         mkWorld (db_meanwhile env (now w) (store w)) rest
                 (trace w ++ [EWaitFor (Some text)]))
    end.

Definition console_log (label : string) : M unit :=
  fun w => (Returned tt, record (EConsoleLog label) w).

Definition console_error (label : string) (e : error) : M unit :=
  fun w => (Returned tt, record (EConsoleError label e) w).

Definition enter (ev : event) : M unit :=
  fun w => (Returned tt, record ev w).

(** [new PublicKey(address)]. *)
Definition new_PublicKey (address : jsstring) : M PublicKey :=
  lift (PublicKey_decode env address).

(** [PublicKey.isOnCurve(address)] on a string: the key is constructed
    first. *)
Definition PublicKey_isOnCurve (address : jsstring) : M bool :=
  key ← new_PublicKey address;
  mret (isOnCurve env key).

(** *** [wallet.ts] *)

Definition generateAccount (telegramId : jsstring) : M Pregen :=
  let identifier := telegramId ++ js "@" ++ template (DOMAIN env) in
  call (ECreateWalletPreGen EVM identifier)
       (fun t => capsule_createWalletPreGen env t EVM identifier).

Definition generateSolanaAccount (telegramId : jsstring) : M Pregen :=
  let identifier := telegramId ++ js "@" ++ template (DOMAIN env) in
  call (ECreateWalletPreGen SOLANA identifier)
       (fun t => capsule_createWalletPreGen env t SOLANA identifier).

Definition sendTransaction (user : User) (amountInETH receiverAddress : jsstring)
  : M jsstring :=
  enter (ESendTransaction user amountInETH receiverAddress);;
  amountInWei ← lift (BigInt (num_mul (Number_ env amountInETH) (pow10 18)));
  tx ← call (ESign (evmUserShare user) receiverAddress amountInWei)
            (fun t => capsule_sendTransaction env t (evmUserShare user)
                        receiverAddress amountInWei);
  console_log "Transaction Hash:";;
  mret tx.

Definition sendSolanaTransaction (user : User) (destAddress : jsstring)
  (amountInSOL : number) : M jsstring :=
  enter (ESendSolanaTransaction user destAddress amountInSOL);;
  try (
    console_log "Solana Signer Address:";;
    fromPublicKey ← new_PublicKey (solanaAddress user);
    console_log "Sender Public Key:";;
    toPublicKey ← new_PublicKey destAddress;
    console_log "Recipient Public Key:";;
    if negb (isOnCurve env toPublicKey)
    then throw (Error "Invalid recipient public key.")
    else
      blockhash ← call EGetLatestBlockhash (solana_getLatestBlockhash env);
      let lamports := num_mul LAMPORTS_PER_SOL amountInSOL in
      (* SystemProgram.transfer encodes the amount through BigInt(lamports) *)
      lift (BigInt lamports);;
      tx ← call (ESolanaSign (solanaUserShare user) fromPublicKey toPublicKey
                             lamports)
                (fun t => capsule_solana_sendTransaction env t
                            (solanaUserShare user) fromPublicKey toPublicKey
                            lamports);
      console_log "Transaction Hash:";;
      mret tx
  ) catch error =>
    (console_error "Error sending Solana transaction:" error;;
     throw (Error "Failed to send SOL transaction")).

(** *** [callbacks.ts] *)

(** [ctx.from?.id.toString()]. *)
Definition ctx_telegramId (ctx : BotContext) : option jsstring :=
  (fun f => Z_toString (id f)) <$> ctx_from ctx.

(** [ctx.from?.username?.toString()]. *)
Definition ctx_username (ctx : BotContext) : option jsstring :=
  ctx_from ctx ≫= from_username.

Definition handleWallet (ctx : BotContext) : M unit :=
  match truthy (ctx_telegramId ctx) with
  | None => ctx_reply MsgTryAgain;; mret tt
  | Some telegramId =>
      user ← User_findOne telegramId;
      match user with
      | None => ctx_reply MsgNoAccount;; mret tt
      | Some user =>
          let evmAddress := evmAddress user in
          let solanaAddress := solanaAddress user in
          ctx_reply (MsgWallets evmAddress solanaAddress);;
          try (
            ethBalance ← call (EGetBalance evmAddress)
                              (fun t => base_getBalance env t evmAddress);
            let formattedEthBalance := formatEther ethBalance in
            ctx_reply (MsgEthBalance formattedEthBalance);;
            solanaPublicKey ← new_PublicKey solanaAddress;
            solBalance ← call (ESolanaGetBalance solanaPublicKey)
                              (fun t => solana_getBalance env t solanaPublicKey);
            let formattedSolBalance :=
              toFixed (Number_toString env)
                      (num_div (num_of_Z solBalance) (pow10 9)) 4 in
            ctx_reply (MsgSolBalance formattedSolBalance);;
            mret tt
          ) catch error =>
            (console_error "Error fetching wallet balances:" error;;
             ctx_reply MsgBalancesError;;
             mret tt)
      end
  end.

Definition handleStart (ctx : BotContext) : M unit :=
  let telegramId := ctx_telegramId ctx in
  let username := or_else (ctx_username ctx) telegramId in
  match truthy telegramId with
  | None => ctx_reply MsgTryAgain;; mret tt
  | Some telegramId =>
      user ← User_findOne telegramId;
      match user with
      | Some _ =>
          ctx_reply MsgAlreadyRegistered;;
          handleWallet ctx
      | None =>
          try (
            msg ← ctx_reply MsgGenerating;
            ethAccount ← generateAccount telegramId;
            let evmUserShare := userShare ethAccount in
            let evmAddress := wallet_address ethAccount in
            solanaAccount ← generateSolanaAccount telegramId;
            let solanaUserShare := userShare solanaAccount in
            let solanaAddress := wallet_address solanaAccount in
            if falsy evmAddress || falsy solanaAddress
            then editMessageText msg MsgCreateFailed
            else
              let user :=
                mkUser telegramId (default [] username)
                       (default [] evmAddress) evmUserShare
                       (default [] solanaAddress) solanaUserShare in
              User_save user;;
              editMessageText msg MsgCreated;;
              handleWallet ctx
          ) catch err =>
            (console_error "" err;;
             ctx_reply MsgCreateError;;
             mret tt)
      end
  end.

Definition transferETHConversation (ctx : BotContext) : M unit :=
  match truthy (ctx_telegramId ctx) with
  | None => ctx_reply MsgTryAgain;; mret tt
  | Some telegramId =>
      user ← User_findOne telegramId;
      match user with
      | None => ctx_reply MsgRegisterFirst;; mret tt
      | Some user =>
          ctx_reply (MsgAskAddress EVM);;
          destAddress ← conversation_waitFor;
          if negb (isAddress env destAddress)
          then ctx_reply (MsgInvalidAddress EVM);; mret tt
          else
            ctx_reply (MsgAskAmount EVM);;
            amountInETH ← conversation_waitFor;
            msg ← ctx_reply (MsgSending EVM amountInETH destAddress);
            if isNaN (parseFloat env amountInETH)
               || num_le0 (parseFloat env amountInETH)
            then editMessageText msg (MsgInvalidAmount EVM)
            else
              try (
                tx ← sendTransaction user amountInETH destAddress;
                editMessageText msg (MsgSent EVM amountInETH destAddress tx)
              ) catch error =>
                (console_error "Error sending transaction:" error;;
                 editMessageText msg (MsgSendFailed EVM))
      end
  end.

Definition transferSOLConversation (ctx : BotContext) : M unit :=
  match truthy (ctx_telegramId ctx) with
  | None => ctx_reply MsgTryAgain;; mret tt
  | Some telegramId =>
      user ← User_findOne telegramId;
      match user with
      | None => ctx_reply MsgRegisterFirst;; mret tt
      | Some user =>
          ctx_reply (MsgAskAddress SOLANA);;
          destAddress ← conversation_waitFor;
          onCurve ← PublicKey_isOnCurve destAddress;
          if negb onCurve
          then ctx_reply (MsgInvalidAddress SOLANA);; mret tt
          else
            ctx_reply (MsgAskAmount SOLANA);;
            amountInSOL ← conversation_waitFor;
            msg ← ctx_reply (MsgSending SOLANA amountInSOL destAddress);
            if isNaN (parseFloat env amountInSOL)
               || num_le0 (parseFloat env amountInSOL)
            then editMessageText msg (MsgInvalidAmount SOLANA)
            else
              try (
                tx ← sendSolanaTransaction user destAddress
                                           (parseFloat env amountInSOL);
                editMessageText msg (MsgSent SOLANA amountInSOL destAddress tx)
              ) catch error =>
                (console_error "Error sending SOL transaction:" error;;
                 editMessageText msg (MsgSendFailed SOLANA))
      end
  end.

End Handlers.

(** ** Conversations under the plugin

    [index.ts] registers the send conversation with [createConversation] and
    enters it from the command handler.  The conversations plugin does not
    keep a run of the builder function alive across updates: it keeps the
    updates the conversation has received, and on every further update it
    runs the function again from the top.  In such a run
    [conversation.waitFor] hands over the texts received so far, in order,
    without delay, and the run stops at the first wait beyond them.  What
    the function does outside the plugin's control (the lookup, the
    executor, the console) is done again by every run; a chat call the
    function makes again is answered by the plugin from its log, so the
    trace of a session records the calls of the function, run by run. *)

(** Within one run no time passes at a wait. *)
Definition within_run (env : Env) : Env :=
  mkEnv (DOMAIN env) (db_findOne_error env) (db_save_error env)
        (fun _ s => s)
        (capsule_createWalletPreGen env) (capsule_sendTransaction env)
        (capsule_solana_sendTransaction env)
        (base_getBalance env) (solana_getBalance env)
        (solana_getLatestBlockhash env)
        (isAddress env) (PublicKey_decode env) (isOnCurve env)
        (parseFloat env) (Number_ env) (Number_toString env).

(** One run of [builder] on the texts [received] so far.  The inbox of the
    world holds the texts still to come and is left alone. *)
Definition activation (builder : Env -> BotContext -> M unit)
  (env : Env) (ctx : BotContext) (received : list jsstring) : M unit :=
  fun w =>
    let (r, w') :=
      builder (within_run env) ctx (mkWorld (store w) received (trace w)) in
    (r, mkWorld (store w') (inbox w) (trace w')).

(** The runs of a session: the first on entering the conversation, then one
    for each text that arrives while the last run ended suspended.  While
    the conversation is suspended other sessions may write to the store. *)
Fixpoint plugin_run (builder : Env -> BotContext -> M unit)
  (env : Env) (ctx : BotContext) (received pending : list jsstring)
  (w : World) : outcome unit * World :=
  match activation builder env ctx received
                   (mkWorld (store w) pending (trace w)) with
  | (Suspended, w') =>
      match pending with
      | [] => (Suspended, w')
      | text :: pending' =>
          plugin_run builder env ctx (received ++ [text]) pending'
            (mkWorld (db_meanwhile env (now w') (store w')) pending'
                     (trace w'))
      end
  | ended => ended
  end.

(** [ctx.conversation.enter(...)] and the updates that follow: the texts of
    the session are the inbox of the world. *)
Definition session (builder : Env -> BotContext -> M unit)
  (env : Env) (ctx : BotContext) : M unit :=
  fun w => plugin_run builder env ctx [] (inbox w) w.

(** ** Observing a run *)

(** The calls a computation makes when started in [w]. *)
Definition events {A} (c : M A) (w : World) : list event :=
  drop (now w) (trace (snd (c w))).

Definition is_binding_creation (ev : event) : bool :=
  match ev with ECreateWalletPreGen _ _ _ => true | _ => false end.

Definition is_save (ev : event) : bool :=
  match ev with ESave _ _ => true | _ => false end.

Definition is_lookup (ev : event) : bool :=
  match ev with EFindOne _ _ => true | _ => false end.

(** A call into the Transaction Executor or beyond it, into the signer. *)
Definition is_executor_call (ev : event) : bool :=
  match ev with
  | ESendTransaction _ _ _ | ESign _ _ _ _
  | ESendSolanaTransaction _ _ _ | ESolanaSign _ _ _ _ _ => true
  | _ => false
  end.

(** The Account an executor is entered with. *)
Definition executor_entered_for (ev : event) : option User :=
  match ev with
  | ESendTransaction user _ _ | ESendSolanaTransaction user _ _ => Some user
  | _ => None
  end.



(** A chain binding was created: the provider answered with an address. *)
Definition binding_created (created : result Pregen) : bool :=
  match created with
  | inl wallet => negb (falsy (wallet_address wallet))
  | inr _ => false
  end.

(** ** Statements of the specification that the handlers are compared with *)

(** Per-chain isolation of balance failures: when one chain's query throws
    and the other's would succeed, the user is still shown the balance of
    the chain that answers. *)
Definition balance_failures_isolated
  (env : Env) (ctx : BotContext) (w : World) : Prop :=
  forall telegramId user key,
    truthy (ctx_telegramId ctx) = Some telegramId ->
    (forall t, db_findOne_error env t = None) ->
    store w !! telegramId = Some user ->
    PublicKey_decode env (solanaAddress user) = inl key ->
    (forall e lamports,
       (forall t, base_getBalance env t (evmAddress user) = inr e) ->
       (forall t, solana_getBalance env t key = inl lamports) ->
       exists formatted,
         EReply (MsgSolBalance formatted) ∈ events (handleWallet env ctx) w)
    /\ (forall e wei,
          (forall t, solana_getBalance env t key = inr e) ->
          (forall t, base_getBalance env t (evmAddress user) = inl wei) ->
          exists formatted,
            EReply (MsgEthBalance formatted) ∈ events (handleWallet env ctx) w).

(** Re-resolution of the Account on entry to [Executing]: the executor is
    handed the Account the store holds when the session executes, not a
    record kept from the start of the session, and when the store holds no
    Account by then the session does not execute but ends with the
    no-account reply. *)
Definition account_re_resolved
  (builder : Env -> BotContext -> M unit)
  (env : Env) (ctx : BotContext) (w : World) : Prop :=
  forall telegramId,
    truthy (ctx_telegramId ctx) = Some telegramId ->
    (forall ev user,
       ev ∈ events (session builder env ctx) w ->
       executor_entered_for ev = Some user ->
       store (snd (session builder env ctx w)) !! telegramId = Some user)
    /\ (store (snd (session builder env ctx w)) !! telegramId = None ->
        existsb is_executor_call (events (session builder env ctx) w) = false
        /\ (fst (session builder env ctx w) = Returned tt ->
            last (events (session builder env ctx) w)
            = Some (EReply MsgRegisterFirst))).


(** ** Reading a displayed number

    What a decimal numeral denotes: [decimal_parts s = Some (v, k)] when [s]
    is a digit string, or two digit strings around a point, of which [k]
    digits stand after the point, and [v] is the number the digits spell;
    [s] then denotes [v / 10^k]. *)
Definition is_digit (c : N) : bool := (48 <=? c)%N && (c <=? 57)%N.

Definition digits_from (acc : Z) (ds : jsstring) : Z :=
  fold_left (fun acc c => acc * 10 + (Z.of_N c - 48)) ds acc.

Definition digits_value (ds : jsstring) : Z := digits_from 0 ds.

Fixpoint split_point (s : jsstring) : jsstring * option jsstring :=
  match s with
  | [] => ([], None)
  | c :: s' =>
      if (c =? 46)%N then ([], Some s')
      else let (int, frac) := split_point s' in (c :: int, frac)
  end.

Definition decimal_parts (s : jsstring) : option (Z * nat) :=
  let (int, frac) := split_point s in
  match int, frac with
  | [], _ => None
  | _, None =>
      if forallb is_digit int then Some (digits_value int, O) else None
  | _, Some [] => None
  | _, Some frac =>
      if forallb is_digit int && forallb is_digit frac
      then Some (digits_value (int ++ frac), length frac)
      else None
  end.

(** ** The address validator of [wallet.ts]

    [isValidEthereumAddress] tests its argument against the regular
    expression [/^0x[a-fA-F0-9]{40}$/].  Expressions of that shape (anchored
    at both ends, a sequence of one-character patterns each repeated a fixed
    number of times) are matched by [regex_test]. *)
Inductive charpat :=
| Lit (c : N)                     (* a literal character *)
| Class (ranges : list (N * N)).  (* a character class of ranges *)

Record piece := Rep { pat : charpat; count : nat }.

Definition char_matches (p : charpat) (c : N) : bool :=
  match p with
  | Lit d => (c =? d)%N
  | Class ranges =>
      existsb (fun r => (fst r <=? c)%N && (c <=? snd r)%N) ranges
  end.

Fixpoint match_rep (p : charpat) (n : nat) (s : jsstring) : option jsstring :=
  match n with
  | O => Some s
  | S n' =>
      match s with
      | c :: s' => if char_matches p c then match_rep p n' s' else None
      | [] => None
      end
  end.

Fixpoint match_pieces (ps : list piece) (s : jsstring) : option jsstring :=
  match ps with
  | [] => Some s
  | p :: ps' =>
      match match_rep (pat p) (count p) s with
      | Some rest => match_pieces ps' rest
      | None => None
      end
  end.

(** [/^ps$/.test(s)]: without the [m] flag, [$] matches at the end of the
    input only. *)
Definition regex_test (ps : list piece) (s : jsstring) : bool :=
  match match_pieces ps s with
  | Some [] => true
  | _ => false
  end.

Definition chr (a : ascii) : N := N_of_ascii a.

Definition addressRegex : list piece :=
  [ Rep (Lit (chr "0")) 1;
    Rep (Lit (chr "x")) 1;
    Rep (Class [(chr "a", chr "f"); (chr "A", chr "F"); (chr "0", chr "9")]) 40 ].

Definition isValidEthereumAddress (address : jsstring) : bool :=
  regex_test addressRegex address.

(** The check the single-chain revision of the send conversation made
    instead: [destAddress.startsWith("0x") && destAddress.length === 42]. *)
Definition legacy_address_check (destAddress : jsstring) : bool :=
  startsWith (js "0x") destAddress && (length destAddress =? 42)%nat.

(** A hexadecimal digit, of either case. *)
Definition hex_digit (c : N) : Prop :=
  (chr "0" <= c <= chr "9")%N \/ (chr "a" <= c <= chr "f")%N
  \/ (chr "A" <= c <= chr "F")%N.

(** The pattern of the specification: [0x] followed by exactly 40
    hexadecimal digits. *)
Definition address_pattern (s : jsstring) : Prop :=
  exists body, s = js "0x" ++ body /\ length body = 40%nat
               /\ Forall hex_digit body.

(** An address check validates by the pattern when it accepts exactly the
    strings of that pattern. *)
Definition validates_by_pattern (check : jsstring -> bool) : Prop :=
  forall s, check s = true <-> address_pattern s.

(** ** A concrete environment

    Models of the library functions the environment supplies, used to run the
    handlers on concrete inputs. *)
Module Example.

(** [bs58.decode]: a base-58 numeral, each leading [1] standing for a zero
    byte; any other character is refused. *)
Definition bs58_alphabet : jsstring :=
  js "123456789ABCDEFGHJKLMNPQRSTUVWXYZabcdefghijkmnopqrstuvwxyz".

Fixpoint index_of (c : N) (alphabet : jsstring) : option N :=
  match alphabet with
  | [] => None
  | a :: alphabet' =>
      if (a =? c)%N then Some 0%N else N.succ <$> index_of c alphabet'
  end.

Fixpoint bs58_value (s : jsstring) (acc : N) : option N :=
  match s with
  | [] => Some acc
  | c :: s' =>
      match index_of c bs58_alphabet with
      | Some i => bs58_value s' (acc * 58 + i)%N
      | None => None
      end
  end.

Fixpoint leading_ones (s : jsstring) : nat :=
  match s with
  | c :: s' => if (c =? 49)%N then S (leading_ones s') else O
  | [] => O
  end.

Fixpoint bytes_fuel (fuel : nat) (n : N) (acc : list N) : list N :=
  match fuel with
  | O => acc
  | S fuel =>
      if (n =? 0)%N then acc
      else bytes_fuel fuel (n / 256)%N ((n mod 256)%N :: acc)
  end.

Definition bs58_decode (s : jsstring) : result (list N) :=
  match bs58_value s 0%N with
  | Some v =>
      inl (replicate (leading_ones s) 0%N
           ++ bytes_fuel (S (N.to_nat (N.log2 v))) v [])
  | None => inr (Error "Non-base58 character")
  end.

(** [new PublicKey(value)] on a string. *)
Definition PublicKey_decode (value : jsstring) : result PublicKey :=
  match bs58_decode value with
  | inl decoded =>
      if (length decoded =? 32)%nat then inl (mkPublicKey decoded)
      else inr (Error "Invalid public key input")
  | inr e => inr e
  end.

(** [parseFloat] and [Number] on decimal literals: optional sign, digits
    with an optional fraction, optional exponent, or [Infinity]. *)
Definition is_whitespace (c : N) : bool :=
  ((9 <=? c)%N && (c <=? 13)%N) || (c =? 32)%N || (c =? 160)%N
  || (c =? 5760)%N || ((8192 <=? c)%N && (c <=? 8202)%N)
  || (c =? 8232)%N || (c =? 8233)%N || (c =? 8239)%N || (c =? 8287)%N
  || (c =? 12288)%N || (c =? 65279)%N.

Fixpoint trim_start (s : jsstring) : jsstring :=
  match s with
  | c :: s' => if is_whitespace c then trim_start s' else s
  | [] => []
  end.

Fixpoint span_digits (s : jsstring) : jsstring * jsstring :=
  match s with
  | c :: s' =>
      if is_digit c
      then let (ds, rest) := span_digits s' in (c :: ds, rest)
      else ([], s)
  | [] => ([], [])
  end.

Definition take_sign (s : jsstring) : bool * jsstring :=
  match s with
  | c :: s' =>
      if (c =? 45)%N then (true, s')
      else if (c =? 43)%N then (false, s') else (false, s)
  | [] => (false, [])
  end.

(** The longest prefix that is a decimal literal, as the number it rounds
    to, and what follows it. *)
Definition parse_decimal (s : jsstring) : number * jsstring :=
  let (negative, s) := take_sign s in
  if startsWith (js "Infinity") s then (Infinity negative, drop 8 s)
  else
    let (int_part, s1) := span_digits s in
    let (frac_part, s2) :=
      match s1 with
      | c :: s1' => if (c =? 46)%N then span_digits s1' else ([], s1)
      | [] => ([], [])
      end in
    if falsy (Some (int_part ++ frac_part)) then (NaN, s)
    else
      let (exponent, s3) :=
        match s2 with
        | c :: s2' =>
            if (c =? 101)%N || (c =? 69)%N
            then
              let (eneg, s2'') := take_sign s2' in
              let (eds, rest) := span_digits s2'' in
              if falsy (Some eds) then (0, s2)
              else (if eneg then - digits_value eds else digits_value eds, rest)
            else (0, s2)
        | [] => (0, [])
        end in
      let mantissa := digits_value (int_part ++ frac_part) in
      let scale := exponent - Z.of_nat (length frac_part) in
      let q := if 0 <=? scale then inject_Z (mantissa * 10 ^ scale)
               else Qmake mantissa (Z.to_pos (10 ^ (- scale))) in
      (RN64 (if negative then - q else q), s3).

Definition parseFloat (s : jsstring) : number :=
  fst (parse_decimal (trim_start s)).

Definition Number_ (s : jsstring) : number :=
  match trim_start s with
  | [] => Num 0
  | s' =>
      let (x, rest) := parse_decimal s' in
      match trim_start rest with
      | [] => x
      | _ => NaN
      end
  end.

(** viem's [isAddress] on addresses without upper-case letters: there it is
    the test against the same expression.  An address with upper-case
    letters, which viem checks against its checksum, is refused here. *)
Definition isAddress (address : jsstring) : bool :=
  isValidEthereumAddress address
  && forallb (fun c => negb ((65 <=? c)%N && (c <=? 90)%N)) address.

Definition environment
  (findOne_error : nat -> option error)
  (meanwhile : nat -> Store -> Store)
  (createWalletPreGen : WalletType -> result Pregen)
  (evm_balance sol_balance : result Z) : Env :=
  mkEnv
    (* DOMAIN *) (Some (js "example.org"))
    (* db_findOne_error, db_save_error, db_meanwhile *)
    findOne_error (fun _ => None) meanwhile
    (* capsule_createWalletPreGen *)
    (fun _ type _ => createWalletPreGen type)
    (* capsule_sendTransaction, capsule_solana_sendTransaction *)
    (fun _ _ _ _ => inl (js "0x5e9d")) (fun _ _ _ _ _ => inl (js "5VERv8"))
    (* base_getBalance, solana_getBalance, solana_getLatestBlockhash *)
    (fun _ _ => evm_balance) (fun _ _ => sol_balance)
    (fun _ => inl (js "EkSnNWid2"))
    (* isAddress, PublicKey_decode, isOnCurve *)
    isAddress PublicKey_decode (fun _ => true)
    (* parseFloat, Number_, Number_toString *)
    parseFloat Number_ (fun _ => js "1e+21").

(** A registered user and the context of a message from them. *)
Definition alice : User :=
  mkUser (js "1001") (js "alice")
         (js "0x52908400098527886e0f7030069857d2e4169ee7") (js "evm-share")
         (js "So11111111111111111111111111111111111111112") (js "sol-share").

Definition ctx_alice : BotContext :=
  mkContext (Some (mkFrom 1001 (Some (js "alice")))).

Definition registered : Store := {[ js "1001" := alice ]}.

Definition no_error : nat -> option error := fun _ => None.
Definition undisturbed : nat -> Store -> Store := fun _ s => s.

Definition created (type : WalletType) : result Pregen :=
  match type with
  | EVM => inl (mkPregen (Some (evmAddress alice)) (evmUserShare alice))
  | SOLANA =>
      inl (mkPregen (Some (solanaAddress alice)) (solanaUserShare alice))
  end.

(** Every collaborator answers. *)
Definition env_ok : Env :=
  environment no_error undisturbed created (inl 1500000000000000000)
              (inl 1234567890).

(** The Base RPC is down; Solana answers. *)
Definition env_evm_down : Env :=
  environment no_error undisturbed created (inr (Error "fetch failed"))
              (inl 1234567890).


(** The Account is removed from the collection while the conversation
    waits for the amount (eight calls into the session). *)
Definition env_account_removed : Env :=
  environment no_error
              (fun t s => if (8 <=? t)%nat then delete (js "1001") s else s)
              created (inl 1500000000000000000) (inl 1234567890).

(** The Account is replaced by another record while the conversation waits
    for the amount. *)
Definition alice_rebound : User :=
  mkUser (js "1001") (js "alice")
         (js "0x52908400098527886e0f7030069857d2e4169ee7") (js "evm-share-2")
         (js "So11111111111111111111111111111111111111112") (js "sol-share-2").

Definition env_account_rebound : Env :=
  environment no_error
              (fun t s => if (8 <=? t)%nat
                          then <[js "1001" := alice_rebound]> s else s)
              created (inl 1500000000000000000) (inl 1234567890).

(** A transfer session: the destination, then the amount. *)
Definition eth_session (amount : string) : World :=
  mkWorld registered
          [js "0x8ba1f109551bd432803012645ac136ddd64dba72"; js amount] [].

Definition sol_session (destAddress amount : string) : World :=
  mkWorld registered [js destAddress; js amount] [].

(** The custody provider fails to create the Solana wallet. *)
Definition env_solana_creation_fails : Env :=
  environment no_error undisturbed
              (fun type => match type with
                           | EVM => created EVM
                           | SOLANA => inr (Error "503")
                           end)
              (inl 1500000000000000000) (inl 1234567890).

(** The key the Solana address of [alice] decodes to. *)
Definition alice_key : PublicKey :=
  Eval vm_compute in
    match PublicKey_decode (solanaAddress alice) with
    | inl key => key
    | inr _ => mkPublicKey []
    end.

End Example.

(** ** Further observations *)

(** The world after calls that left the store and the inbox alone. *)
Definition appended (w : World) (es : list event) : World :=
  mkWorld (store w) (inbox w) (trace w ++ es).

(** A request to the signer to sign and broadcast. *)
Definition is_sign (ev : event) : bool :=
  match ev with
  | ESign _ _ _ _ | ESolanaSign _ _ _ _ _ => true
  | _ => false
  end.

(** A balance query to a chain. *)
Definition is_balance (ev : event) : bool :=
  match ev with
  | EGetBalance _ _ | ESolanaGetBalance _ _ => true
  | _ => false
  end.

Definition is_wait (ev : event) : bool :=
  match ev with EWaitFor _ => true | _ => false end.

(** The texts a run took from the inbox, in order. *)
Definition delivered (es : list event) : list jsstring :=
  omap (fun ev => match ev with EWaitFor text => text | _ => None end) es.

(** The identifier under which a wallet is requested:
    [`${telegramId}@${DOMAIN}`]. *)
Definition capsule_identifier (env : Env) (telegramId : jsstring) : jsstring :=
  telegramId ++ js "@" ++ template (DOMAIN env).

(** ** More concrete environments *)
Module Scenario.

(** A message without a sender, and one from a sender without a username. *)
Definition ctx_nobody : BotContext := mkContext None.
Definition ctx_anonymous : BotContext := mkContext (Some (mkFrom 1001 None)).

(** An environment like [Example.env_ok] with the signers and the shares
    the provider hands out as given. *)
Definition environment
  (evm_share sol_share : jsstring)
  (sign : result jsstring) (solana_sign : result jsstring) : Env :=
  mkEnv
    (Some (js "example.org"))
    Example.no_error (fun _ => None) Example.undisturbed
    (fun _ type _ =>
       match type with
       | EVM => inl (mkPregen (Some (evmAddress Example.alice)) evm_share)
       | SOLANA => inl (mkPregen (Some (solanaAddress Example.alice)) sol_share)
       end)
    (fun _ _ _ _ => sign) (fun _ _ _ _ _ => solana_sign)
    (fun _ _ => inl 1500000000000000000) (fun _ _ => inl 1234567890)
    (fun _ => inl (js "EkSnNWid2"))
    Example.isAddress Example.PublicKey_decode (fun _ => true)
    Example.parseFloat Example.Number_ (fun _ => js "1e+21").

(** The signers refuse. *)
Definition env_signer_down : Env :=
  environment (js "evm-share") (js "sol-share")
              (inr (Error "insufficient funds")) (inr (Error "blockhash expired")).

(** The provider creates the Solana wallet but hands out no share for it. *)
Definition env_no_solana_share : Env :=
  environment (js "evm-share") [] (inl (js "0x5e9d")) (inl (js "5VERv8")).

(** The store answers the first lookup of a run and fails the one made
    after six further calls. *)
Definition env_store_goes_down : Env :=
  Example.environment
    (fun t => if (t =? 6)%nat then Some (Error "MongoNetworkError") else None)
    Example.undisturbed Example.created (inl 1500000000000000000)
    (inl 1234567890).

End Scenario.

(** * Properties *)

(** ** Address validation *)

Lemma match_rep_spec (p : charpat) (n : nat) (s rest : jsstring) :
  match_rep p n s = Some rest <->
  exists pre, s = pre ++ rest /\ length pre = n
              /\ Forall (fun c => char_matches p c = true) pre.
Proof.
  revert s. induction n as [|n IH]; intros s; simpl.
  - split.
    + intros [= ->]. exists []. auto.
    + intros (pre & -> & Hlen & _). destruct pre; [reflexivity|discriminate].
  - destruct s as [|c s].
    + split; [discriminate|].
      intros (pre & Heq & Hlen & _). destruct pre; discriminate.
    + destruct (char_matches p c) eqn:Hc.
      * rewrite IH. split.
        -- intros (pre & -> & Hlen & Hall). exists (c :: pre).
           repeat split; simpl; auto.
        -- intros (pre & Heq & Hlen & Hall).
           destruct pre as [|c' pre]; [discriminate|].
           simpl in Heq. injection Heq as <- ->.
           exists pre. inversion Hall; subst. auto.
      * split; [discriminate|].
        intros (pre & Heq & Hlen & Hall).
        destruct pre as [|c' pre]; [discriminate|].
        simpl in Heq. injection Heq as <- ->.
        inversion Hall; subst. congruence.
Qed.

Lemma hex_class_spec (c : N) :
  char_matches
    (Class [(chr "a", chr "f"); (chr "A", chr "F"); (chr "0", chr "9")]) c = true
  <-> hex_digit c.
Proof.
  unfold hex_digit, chr. simpl.
  rewrite !orb_true_iff, !andb_true_iff, !N.leb_le. intuition lia.
Qed.

Lemma isValidEthereumAddress_spec (s : jsstring) :
  isValidEthereumAddress s = true <->
  exists body, s = js "0x" ++ body /\ length body = 40%nat
               /\ Forall hex_digit body.
Proof.
  unfold isValidEthereumAddress, regex_test, addressRegex.
  cbn [match_pieces pat count].
  split.
  - destruct (match_rep (Lit (chr "0")) 1 s) as [s1|] eqn:H0; [|discriminate].
    destruct (match_rep (Lit (chr "x")) 1 s1) as [s2|] eqn:H1; [|discriminate].
    destruct (match_rep _ 40 s2) as [s3|] eqn:H2; [|discriminate].
    destruct s3; [|discriminate]. intros _.
    apply match_rep_spec in H2 as (body & -> & Hlen & Hall).
    rewrite app_nil_r in *.
    exists body. repeat split; auto.
    + apply match_rep_spec in H0 as (p0 & -> & Hl0 & Hp0).
      apply match_rep_spec in H1 as (p1 & -> & Hl1 & Hp1).
      destruct p0 as [|a [|? ?]]; try discriminate.
      destruct p1 as [|b [|? ?]]; try discriminate.
      inversion Hp0 as [|? ? Ha _]; inversion Hp1 as [|? ? Hb _]; subst.
      simpl in Ha, Hb. apply N.eqb_eq in Ha, Hb. subst. reflexivity.
    + eapply Forall_impl; [exact Hall|]. intros c. apply hex_class_spec.
  - intros (body & -> & Hlen & Hall).
    assert (H0 : match_rep (Lit (chr "0")) 1 (js "0x" ++ body)
                 = Some (chr "x" :: body)).
    { apply match_rep_spec. exists [chr "0"]. repeat split.
      repeat constructor. }
    assert (H1 : match_rep (Lit (chr "x")) 1 (chr "x" :: body) = Some body).
    { apply match_rep_spec. exists [chr "x"]. repeat split.
      repeat constructor. }
    assert (H2 : match_rep
              (Class [(chr "a", chr "f"); (chr "A", chr "F"); (chr "0", chr "9")])
              40 body = Some []).
    { apply match_rep_spec. exists body. rewrite app_nil_r.
      repeat split; auto.
      eapply Forall_impl; [exact Hall|]. intros c. apply hex_class_spec. }
    rewrite H0, H1, H2. reflexivity.
Qed.

Lemma legacy_address_check_spec (s : jsstring) :
  legacy_address_check s = true
  <-> take 2 s = js "0x" /\ length s = 42%nat.
Proof.
  unfold legacy_address_check, startsWith.
  rewrite andb_true_iff, bool_decide_eq_true, Nat.eqb_eq.
  reflexivity.
Qed.

(** C4, as stated, fails for the check the single-chain send conversation
    makes inline: it accepts [0x] followed by forty [z], which is not of the
    pattern. *)
Lemma inline_check_is_not_the_pattern :
  ~ validates_by_pattern legacy_address_check.
Proof.
  intros H.
  destruct (H (js "0x" ++ replicate 40 (chr "z"))) as [Haccepted _].
  destruct (Haccepted eq_refl) as (body & Hbody & _ & Hhex).
  apply app_inv_head in Hbody. subst body.
  cbn [replicate] in Hhex. apply Forall_cons in Hhex as [Hz _].
  unfold hex_digit, chr in Hz. cbn in Hz. lia.
Qed.

(** ** Running the handlers

    The handlers are straight-line code: a proof runs them symbolically,
    splitting on each answer of a collaborator. *)

Ltac unfold_M :=
  unfold mbind, M_bind, mret, M_ret, try_catch, call, lift, throw,
    User_findOne, User_save, ctx_reply, editMessageText, conversation_waitFor,
    console_log, console_error, enter, new_PublicKey, PublicKey_isOnCurve,
    generateAccount, generateSolanaAccount, sendTransaction,
    sendSolanaTransaction, record, now in *.

Ltac simpl_M := cbn -[formatEther toFixed num_div num_mul BigInt pow10 js] in *.

Ltac case_answer :=
  match goal with
  | |- context [match ?x with _ => _ end] =>
      lazymatch x with
      | context [match _ with _ => _ end] => fail
      | _ => destruct x eqn:?
      end
  end.

Ltac exec :=
  repeat (progress unfold_M); simpl_M;
  repeat (case_answer; simpl_M; simplify_eq).

(** Brings [events c w] to an explicit list once the trace is known. *)
Ltac list_events :=
  unfold events, now; simpl_M;
  repeat rewrite <- app_assoc; simpl_M;
  try rewrite drop_app_length.

(** Finds where an event sits in an explicit list. *)
Ltac split_at_event :=
  repeat match goal with
         | H : _ = ?before ++ _ :: _ |- _ =>
             destruct before; cbn [app] in H; simplify_eq
         end.

Ltac in_list :=
  repeat first [ apply elem_of_cons; left; reflexivity
               | apply elem_of_cons; right ].

Ltac not_in_list H :=
  repeat (apply elem_of_cons in H as [H|H]; simplify_eq);
  try (apply elem_of_nil in H; contradiction).

(** ** The address checks *)

(** C4, amended. Each address check accepts by its own rule.  The validator
    [isValidEthereumAddress] accepts a string exactly when it is [0x]
    followed by 40 hexadecimal digits of either case; hence it rejects every
    string whose length is not 42, every string that does not start with
    [0x], and every string with a character after the prefix that is not a
    hexadecimal digit.  The send conversations do not call it.  The inline
    check of the single-chain conversation accepts exactly the strings of
    length 42 that start with [0x], whatever the other forty characters
    are.  The ETH conversation goes by [isAddress]: it sends the
    invalid-address reply only for a destination [isAddress] refuses and
    asks for the amount only for one it accepts. *)
Theorem address_checks_by_their_rules :
  (validates_by_pattern isValidEthereumAddress
   /\ (forall s, length s <> 42%nat -> isValidEthereumAddress s = false)
   /\ (forall s, take 2 s <> js "0x" -> isValidEthereumAddress s = false)
   /\ (forall s c, c ∈ drop 2 s -> ~ hex_digit c ->
       isValidEthereumAddress s = false))
  /\ (forall s,
        legacy_address_check s = true
        <-> take 2 s = js "0x" /\ length s = 42%nat)
  /\ (forall env ctx w,
        (EReply (MsgInvalidAddress EVM)
           ∈ events (transferETHConversation env ctx) w ->
         exists destAddress rest,
           inbox w = destAddress :: rest
           /\ isAddress env destAddress = false)
        /\ (EReply (MsgAskAmount EVM)
              ∈ events (transferETHConversation env ctx) w ->
            exists destAddress rest,
              inbox w = destAddress :: rest
              /\ isAddress env destAddress = true)).
Proof.
  split; [|split].
  - split; [exact isValidEthereumAddress_spec|].
    repeat split.
    + intros s Hlen. apply not_true_is_false. intros H.
      apply isValidEthereumAddress_spec in H as (body & -> & Hb & _).
      apply Hlen. simpl. rewrite Hb. reflexivity.
    + intros s Hpre. apply not_true_is_false. intros H.
      apply isValidEthereumAddress_spec in H as (body & -> & _ & _).
      apply Hpre. reflexivity.
    + intros s c Hc Hhex. apply not_true_is_false. intros H.
      apply isValidEthereumAddress_spec in H as (body & -> & _ & Hall).
      simpl in Hc. rewrite Forall_forall in Hall. auto.
  - exact legacy_address_check_spec.
  - intros env ctx w. unfold events, transferETHConversation.
    split; exec; list_events; intros Hin; not_in_list Hin;
      do 2 eexists; (split; [reflexivity|]);
      first [ apply negb_true_iff; assumption
            | apply negb_false_iff; assumption ].
Qed.

(** ** Wallet display *)

(** C10. For a registered user, [handleWallet] sends the message with both
    addresses right after the lookup, before any balance query, and returns
    normally whatever the balance queries answer. *)
Theorem handleWallet_addresses_first
  (env : Env) (ctx : BotContext) (w : World)
  (telegramId : jsstring) (user : User) :
  truthy (ctx_telegramId ctx) = Some telegramId ->
  db_findOne_error env (now w) = None ->
  store w !! telegramId = Some user ->
  fst (handleWallet env ctx w) = Returned tt
  /\ exists rest,
       events (handleWallet env ctx) w =
         EFindOne telegramId (inl (Some user))
         :: EReply (MsgWallets (evmAddress user) (solanaAddress user))
         :: rest.
Proof.
  intros Hid Hdb Huser.
  unfold events, handleWallet. rewrite Hid.
  exec; (split; [reflexivity|]); list_events; eexists; reflexivity.
Qed.

Lemma handleWallet_addresses_first_witness :
  fst (handleWallet Example.env_ok Example.ctx_alice
         (mkWorld Example.registered [] [])) = Returned tt
  /\ exists rest,
       events (handleWallet Example.env_ok Example.ctx_alice)
              (mkWorld Example.registered [] []) =
         EFindOne (js "1001") (inl (Some Example.alice))
         :: EReply (MsgWallets (evmAddress Example.alice)
                               (solanaAddress Example.alice))
         :: rest.
Proof.
  apply (handleWallet_addresses_first Example.env_ok Example.ctx_alice
           (mkWorld Example.registered [] []) (js "1001") Example.alice);
    reflexivity.
Defined.

(** C1, as stated, fails: with the Base RPC down and Solana answering, a
    registered user is shown no Solana balance. *)
Lemma balance_failures_not_isolated :
  ~ balance_failures_isolated Example.env_evm_down Example.ctx_alice
      (mkWorld Example.registered [] []).
Proof.
  intros H.
  destruct (H (js "1001") Example.alice Example.alice_key)
    as [Hevm _]; try reflexivity.
  destruct (Hevm (Error "fetch failed") 1234567890) as [formatted Hin];
    try reflexivity.
  vm_compute in Hin.
  not_in_list Hin.
Qed.

(** C1, amended. The two balance queries run in sequence inside one guarded
    block.  If the EVM query throws, the handler reports a single balance
    failure and never queries Solana, so no Solana balance is shown.  If the
    EVM query answers and the Solana side (parsing the stored key, or the
    query) throws, the ETH balance has been shown already and the same
    failure message follows it. *)
Theorem handleWallet_balances_sequential
  (env : Env) (ctx : BotContext) (w : World)
  (telegramId : jsstring) (user : User) :
  truthy (ctx_telegramId ctx) = Some telegramId ->
  db_findOne_error env (now w) = None ->
  store w !! telegramId = Some user ->
  fst (handleWallet env ctx w) = Returned tt
  /\ (forall e,
        (forall t, base_getBalance env t (evmAddress user) = inr e) ->
        events (handleWallet env ctx) w =
          [ EFindOne telegramId (inl (Some user));
            EReply (MsgWallets (evmAddress user) (solanaAddress user));
            EGetBalance (evmAddress user) (inr e);
            EConsoleError "Error fetching wallet balances:" e;
            EReply MsgBalancesError ])
  /\ (forall wei e,
        (forall t, base_getBalance env t (evmAddress user) = inl wei) ->
        PublicKey_decode env (solanaAddress user) = inr e
        \/ (exists key,
              PublicKey_decode env (solanaAddress user) = inl key
              /\ forall t, solana_getBalance env t key = inr e) ->
        exists query,
          events (handleWallet env ctx) w =
            [ EFindOne telegramId (inl (Some user));
              EReply (MsgWallets (evmAddress user) (solanaAddress user));
              EGetBalance (evmAddress user) (inl wei);
              EReply (MsgEthBalance (formatEther wei)) ]
            ++ query
            ++ [ EConsoleError "Error fetching wallet balances:" e;
                 EReply MsgBalancesError ]
          /\ (query = []
              \/ exists key, query = [ESolanaGetBalance key (inr e)])).
Proof.
  intros Hid Hdb Huser.
  unfold events, handleWallet. rewrite Hid.
  exec; list_events.
  all: split; [reflexivity|split].
  all: try (intros e' Hevm;
            repeat match goal with
                   | H : base_getBalance _ _ _ = _ |- _ =>
                       rewrite Hevm in H; simplify_eq
                   end; reflexivity).
  all: intros wei e' Hevm Hsol;
    repeat match goal with
           | H : base_getBalance _ _ _ = _ |- _ =>
               rewrite Hevm in H; simplify_eq
           end;
    destruct Hsol as [Hsol|(key & Hkey & Hsol)]; simplify_eq;
    repeat match goal with
           | H : solana_getBalance _ _ _ = _ |- _ =>
               rewrite Hsol in H; simplify_eq
           end.
  - eexists [_]. split; [reflexivity|]. right. eexists. reflexivity.
  - exists []. split; [reflexivity|]. left. reflexivity.
Qed.

Lemma handleWallet_balances_sequential_witness :
  fst (handleWallet Example.env_evm_down Example.ctx_alice
         (mkWorld Example.registered [] [])) = Returned tt
  /\ events (handleWallet Example.env_evm_down Example.ctx_alice)
            (mkWorld Example.registered [] []) =
       [ EFindOne (js "1001") (inl (Some Example.alice));
         EReply (MsgWallets (evmAddress Example.alice)
                            (solanaAddress Example.alice));
         EGetBalance (evmAddress Example.alice) (inr (Error "fetch failed"));
         EConsoleError "Error fetching wallet balances:" (Error "fetch failed");
         EReply MsgBalancesError ].
Proof.
  destruct (handleWallet_balances_sequential Example.env_evm_down
              Example.ctx_alice (mkWorld Example.registered [] [])
              (js "1001") Example.alice)
    as (Hret & Hevm & _); try reflexivity.
  split; [exact Hret|].
  apply Hevm. reflexivity.
Defined.

(** ** Provisioning *)

(** C2. Provisioning is atomic.  Whenever [handleStart] attempts the durable
    write, both chain bindings were created before it, each with an address,
    and the record written holds exactly those addresses and shares.  When a
    binding creation fails or yields no address, the store is left as it was,
    no write is attempted, and the handler ends by reporting the failure.
    The only change [handleStart] ever makes to the store is that one
    successful write. *)
Theorem handleStart_atomic (env : Env) (ctx : BotContext) (w : World) :
  (forall before u saved after,
     events (handleStart env ctx) w = before ++ ESave u saved :: after ->
     exists i1 i2 evm sol,
       ECreateWalletPreGen EVM i1 (inl evm) ∈ before
       /\ ECreateWalletPreGen SOLANA i2 (inl sol) ∈ before
       /\ wallet_address evm = Some (evmAddress u) /\ evmAddress u <> []
       /\ wallet_address sol = Some (solanaAddress u) /\ solanaAddress u <> []
       /\ evmUserShare u = userShare evm
       /\ solanaUserShare u = userShare sol)
  /\ (forall type identifier created,
        ECreateWalletPreGen type identifier created
          ∈ events (handleStart env ctx) w ->
        binding_created created = false ->
        store (snd (handleStart env ctx w)) = store w
        /\ forallb (fun ev => negb (is_save ev))
                   (events (handleStart env ctx) w) = true
        /\ fst (handleStart env ctx w) = Returned tt
        /\ (last (events (handleStart env ctx) w) = Some (EReply MsgCreateError)
            \/ exists message_id,
                 last (events (handleStart env ctx) w)
                 = Some (EEditMessageText message_id MsgCreateFailed)))
  /\ (store (snd (handleStart env ctx w)) = store w
      \/ exists u,
           ESave u (inl tt) ∈ events (handleStart env ctx) w
           /\ store (snd (handleStart env ctx w))
              = <[telegramId u := u]> (store w)).
Proof.
  unfold events, handleStart, handleWallet.
  exec.
  all: list_events.
  all: split;
    [ intros before u' saved after H; split_at_event
    | split;
      [ intros type identifier created Hin Hfail; not_in_list Hin
      | try (left; reflexivity) ] ].
  all: unfold binding_created in *.
  all: repeat match goal with
         | H : context [falsy (wallet_address ?p)] |- _ =>
             destruct (wallet_address p) as [[|? ?]|] eqn:?; simpl in H
         end; simplify_eq.
  all: try (do 4 eexists; split; [in_list|split; [in_list|]];
            cbn; repeat split; (done || eassumption)).
  all: try (repeat split; try reflexivity;
            first [ left; reflexivity | right; eexists; reflexivity ]).
  all: try (right; eexists; split; [in_list|reflexivity]).
Qed.

(** C3. Provisioning is idempotent.  For an identity that already has an
    Account, [handleStart] leaves the store unchanged, and makes no call that
    creates a chain binding, no durable write and no call to the executor;
    when the store also answers the second lookup, the handler returns after
    showing the addresses of that same Account. *)
Theorem handleStart_idempotent
  (env : Env) (ctx : BotContext) (w : World)
  (telegramId : jsstring) (user : User) :
  truthy (ctx_telegramId ctx) = Some telegramId ->
  db_findOne_error env (now w) = None ->
  store w !! telegramId = Some user ->
  store (snd (handleStart env ctx w)) = store w
  /\ forallb (fun ev => negb (is_binding_creation ev) && negb (is_save ev)
                        && negb (is_executor_call ev))
             (events (handleStart env ctx) w) = true
  /\ ((forall t, db_findOne_error env t = None) ->
      fst (handleStart env ctx w) = Returned tt
      /\ exists rest,
           events (handleStart env ctx) w =
             EFindOne telegramId (inl (Some user))
             :: EReply MsgAlreadyRegistered
             :: EFindOne telegramId (inl (Some user))
             :: EReply (MsgWallets (evmAddress user) (solanaAddress user))
             :: rest).
Proof.
  intros Hid Hdb Huser.
  unfold events, handleStart, handleWallet. rewrite Hid.
  exec; list_events.
  all: split; [reflexivity|split; [reflexivity|]].
  all: intros Hall;
    repeat match goal with
           | H : db_findOne_error _ _ = Some _ |- _ =>
               rewrite Hall in H; discriminate
           end.
  all: split; [reflexivity|eexists; reflexivity].
Qed.

Lemma handleStart_idempotent_witness :
  store (snd (handleStart Example.env_ok Example.ctx_alice
                (mkWorld Example.registered [] [])))
  = Example.registered
  /\ forallb (fun ev => negb (is_binding_creation ev) && negb (is_save ev)
                        && negb (is_executor_call ev))
             (events (handleStart Example.env_ok Example.ctx_alice)
                     (mkWorld Example.registered [] [])) = true
  /\ ((forall t, db_findOne_error Example.env_ok t = None) ->
      fst (handleStart Example.env_ok Example.ctx_alice
             (mkWorld Example.registered [] [])) = Returned tt
      /\ exists rest,
           events (handleStart Example.env_ok Example.ctx_alice)
                  (mkWorld Example.registered [] []) =
             EFindOne (js "1001") (inl (Some Example.alice))
             :: EReply MsgAlreadyRegistered
             :: EFindOne (js "1001") (inl (Some Example.alice))
             :: EReply (MsgWallets (evmAddress Example.alice)
                                   (solanaAddress Example.alice))
             :: rest).
Proof.
  apply (handleStart_idempotent Example.env_ok Example.ctx_alice
           (mkWorld Example.registered [] []) (js "1001") Example.alice);
    reflexivity.
Defined.

(** ** Guided transfers *)



(** One step of the plugin's loop. *)
Lemma plugin_run_unfold
  (builder : Env -> BotContext -> M unit) (env : Env) (ctx : BotContext)
  (received pending : list jsstring) (w : World) :
  plugin_run builder env ctx received pending w
  = match activation builder env ctx received
                     (mkWorld (store w) pending (trace w)) with
    | (Suspended, w') =>
        match pending with
        | [] => (Suspended, w')
        | text :: pending' =>
            plugin_run builder env ctx (received ++ [text]) pending'
              (mkWorld (db_meanwhile env (now w') (store w')) pending'
                       (trace w'))
        end
    | ended => ended
    end.
Proof. destruct pending; reflexivity. Qed.

(** The outcome of a session is the outcome of its last run, a run of the
    conversation function on the first texts of the session: what holds of
    every run of the function holds of the run a session ends with. *)
Lemma plugin_run_last
  (builder : Env -> BotContext -> M unit) (env : Env) (ctx : BotContext)
  (pending : list jsstring) :
  forall (received : list jsstring) (w : World),
  exists k w',
    (k <= length pending)%nat
    /\ plugin_run builder env ctx received pending w
       = activation builder env ctx (received ++ take k pending) w'
    /\ inbox w' = drop k pending.
Proof.
  induction pending as [|text pending IH]; intros received w.
  - exists 0%nat, (mkWorld (store w) [] (trace w)).
    split; [reflexivity|]. split; [|reflexivity].
    cbn [plugin_run take]. rewrite app_nil_r.
    destruct (activation builder env ctx received
                (mkWorld (store w) [] (trace w))) as [[| |] w']; reflexivity.
  - cbn [plugin_run].
    destruct (activation builder env ctx received
                (mkWorld (store w) (text :: pending) (trace w)))
      as [[a|e|] w'] eqn:Hrun.
    + exists 0%nat, (mkWorld (store w) (text :: pending) (trace w)).
      split; [cbn; lia|]. split; [|reflexivity].
      cbn [take]. rewrite app_nil_r. symmetry. exact Hrun.
    + exists 0%nat, (mkWorld (store w) (text :: pending) (trace w)).
      split; [cbn; lia|]. split; [|reflexivity].
      cbn [take]. rewrite app_nil_r. symmetry. exact Hrun.
    + destruct (IH (received ++ [text])
                   (mkWorld (db_meanwhile env (now w') (store w')) pending
                            (trace w')))
        as (k & w'' & Hk & Hlast & Hrest).
      exists (S k), w''. split; [cbn; lia|]. split; [|exact Hrest].
      rewrite Hlast. cbn [take]. rewrite <- app_assoc. reflexivity.
Qed.

Lemma session_is_its_last_run
  (builder : Env -> BotContext -> M unit) (env : Env) (ctx : BotContext)
  (w : World) :
  exists k w',
    (k <= length (inbox w))%nat
    /\ session builder env ctx w
       = activation builder env ctx (take k (inbox w)) w'
    /\ inbox w' = drop k (inbox w).
Proof.
  unfold session.
  destruct (plugin_run_last builder env ctx (inbox w) [] w)
    as (k & w' & Hk & Hlast & Hrest).
  exists k, w'. auto.
Qed.

(** Runs a session symbolically, run by run: the runs for no text, for the
    first text and for the first two texts. *)
Ltac next_run :=
  try rewrite plugin_run_unfold;
  unfold activation, within_run, transferETHConversation,
    transferSOLConversation;
  exec.

Ltac run_session :=
  unfold events, session;
  match goal with
  | |- context [inbox ?w] =>
      let a := fresh "destAddress" in
      let m := fresh "amount" in
      let rest := fresh "rest" in
      destruct (inbox w) as [|a [|m rest]] eqn:?
  end;
  do 3 next_run.

(** C7. On the transition into Executing the Account is resolved again.
    The plugin runs the conversation function from the top for the update
    that brings the amount, so the lookup at its head is made again then:
    in an ETH and in a SOL session alike, the record an executor is entered
    with is the Account the store holds at that moment, whatever record the
    session started with; and when the store holds no Account for the
    sender by then, no executor is entered and a session that returns ends
    with the no-account reply. *)
Theorem session_re_resolves_account
  (env : Env) (ctx : BotContext) (w : World) :
  account_re_resolved transferETHConversation env ctx w
  /\ account_re_resolved transferSOLConversation env ctx w.
Proof.
  split; intros telegramId Hid; (split; [intros ev user|]).
  - run_session.
    all: exec; list_events; intros Hin Hentered; not_in_list Hin;
      cbn in Hentered; simplify_eq;
      repeat rewrite <- app_assoc in *; cbn [app] in *; assumption.
  - run_session.
    all: exec; list_events; intros Hgone;
      repeat rewrite <- app_assoc in *; cbn [app] in *; try congruence.
    all: split; [reflexivity|]; intros Hreturned;
      first [discriminate Hreturned | reflexivity].
  - run_session.
    all: exec; list_events; intros Hin Hentered; not_in_list Hin;
      cbn in Hentered; simplify_eq;
      repeat rewrite <- app_assoc in *; cbn [app] in *; assumption.
  - run_session.
    all: exec; list_events; intros Hgone;
      repeat rewrite <- app_assoc in *; cbn [app] in *; try congruence.
    all: split; [reflexivity|]; intros Hreturned;
      first [discriminate Hreturned | reflexivity].
Qed.

Lemma session_re_resolves_account_witness :
  store (snd (session transferETHConversation Example.env_account_rebound
                Example.ctx_alice (Example.eth_session "0.05")))
    !! js "1001" = Some Example.alice_rebound
  /\ existsb is_executor_call
       (events (session transferETHConversation Example.env_account_removed
                  Example.ctx_alice)
               (Example.eth_session "0.05")) = false
  /\ last (events (session transferETHConversation
                     Example.env_account_removed Example.ctx_alice)
                  (Example.eth_session "0.05"))
     = Some (EReply MsgRegisterFirst).
Proof.
  split.
  - destruct (session_re_resolves_account Example.env_account_rebound
                Example.ctx_alice (Example.eth_session "0.05")) as [Heth _].
    destruct (Heth (js "1001") eq_refl) as [Hrecord _].
    apply (Hrecord (ESendTransaction Example.alice_rebound (js "0.05")
                      (js "0x8ba1f109551bd432803012645ac136ddd64dba72"))).
    + vm_compute. in_list.
    + reflexivity.
  - destruct (session_re_resolves_account Example.env_account_removed
                Example.ctx_alice (Example.eth_session "0.05")) as [Heth _].
    destruct (Heth (js "1001") eq_refl) as [_ Hgone].
    destruct Hgone as [Hnone Hlast]; [reflexivity|].
    split; [exact Hnone | apply Hlast; reflexivity].
Defined.

(** An ETH session in which the Account is bound to new shares while the
    conversation waits for the amount: three runs, three lookups, and the
    transfer is signed with the share read by the last one. *)
Example session_after_rebinding :
  events (session transferETHConversation Example.env_account_rebound
            Example.ctx_alice)
         (Example.eth_session "0.05") =
    [ EFindOne (js "1001") (inl (Some Example.alice));
      EReply (MsgAskAddress EVM);
      EWaitFor None;
      EFindOne (js "1001") (inl (Some Example.alice));
      EReply (MsgAskAddress EVM);
      EWaitFor (Some (js "0x8ba1f109551bd432803012645ac136ddd64dba72"));
      EReply (MsgAskAmount EVM);
      EWaitFor None;
      EFindOne (js "1001") (inl (Some Example.alice_rebound));
      EReply (MsgAskAddress EVM);
      EWaitFor (Some (js "0x8ba1f109551bd432803012645ac136ddd64dba72"));
      EReply (MsgAskAmount EVM);
      EWaitFor (Some (js "0.05"));
      EReply (MsgSending EVM (js "0.05")
                (js "0x8ba1f109551bd432803012645ac136ddd64dba72"));
      ESendTransaction Example.alice_rebound (js "0.05")
        (js "0x8ba1f109551bd432803012645ac136ddd64dba72");
      ESign (js "evm-share-2")
            (js "0x8ba1f109551bd432803012645ac136ddd64dba72")
            50000000000000000 (inl (js "0x5e9d"));
      EConsoleLog "Transaction Hash:";
      EEditMessageText 13
        (MsgSent EVM (js "0.05")
           (js "0x8ba1f109551bd432803012645ac136ddd64dba72") (js "0x5e9d")) ].
Proof. vm_compute. reflexivity. Qed.

(** The same session when the Account is removed while the conversation
    waits for the amount: the last run finds no Account and nothing is
    executed. *)
Example session_after_removal :
  events (session transferETHConversation Example.env_account_removed
            Example.ctx_alice)
         (Example.eth_session "0.05") =
    [ EFindOne (js "1001") (inl (Some Example.alice));
      EReply (MsgAskAddress EVM);
      EWaitFor None;
      EFindOne (js "1001") (inl (Some Example.alice));
      EReply (MsgAskAddress EVM);
      EWaitFor (Some (js "0x8ba1f109551bd432803012645ac136ddd64dba72"));
      EReply (MsgAskAmount EVM);
      EWaitFor None;
      EFindOne (js "1001") (inl None);
      EReply MsgRegisterFirst ].
Proof. vm_compute. reflexivity. Qed.

(** The Solana conversation rejects a destination that decodes to a key off
    the curve with the invalid-address message. *)
Lemma transferSOL_off_curve_rejected
  (env : Env) (ctx : BotContext) (w : World)
  (telegramId : jsstring) (user : User)
  (destAddress : jsstring) (rest : list jsstring) (key : PublicKey) :
  truthy (ctx_telegramId ctx) = Some telegramId ->
  db_findOne_error env (now w) = None ->
  store w !! telegramId = Some user ->
  inbox w = destAddress :: rest ->
  PublicKey_decode env destAddress = inl key ->
  isOnCurve env key = false ->
  fst (transferSOLConversation env ctx w) = Returned tt
  /\ events (transferSOLConversation env ctx) w =
       [ EFindOne telegramId (inl (Some user));
         EReply (MsgAskAddress SOLANA);
         EWaitFor (Some destAddress);
         EReply (MsgInvalidAddress SOLANA) ].
Proof.
  intros Hid Hdb Huser Hinbox Hkey Hcurve.
  unfold events, transferSOLConversation. rewrite Hid.
  exec; list_events; try (rewrite Hcurve in *; discriminate).
  split; reflexivity.
Qed.

(** A destination that does not decode makes [PublicKey.isOnCurve] throw,
    outside any guarded block: the error leaves the conversation and the
    user is told nothing. *)
Lemma transferSOL_decode_error_escapes
  (env : Env) (ctx : BotContext) (w : World)
  (telegramId : jsstring) (user : User)
  (destAddress : jsstring) (rest : list jsstring) (e : error) :
  truthy (ctx_telegramId ctx) = Some telegramId ->
  db_findOne_error env (now w) = None ->
  store w !! telegramId = Some user ->
  inbox w = destAddress :: rest ->
  PublicKey_decode env destAddress = inr e ->
  fst (transferSOLConversation env ctx w) = Thrown e
  /\ events (transferSOLConversation env ctx) w =
       [ EFindOne telegramId (inl (Some user));
         EReply (MsgAskAddress SOLANA);
         EWaitFor (Some destAddress) ].
Proof.
  intros Hid Hdb Huser Hinbox Hkey.
  unfold events, transferSOLConversation. rewrite Hid.
  exec; list_events. split; reflexivity.
Qed.

(** C5, at the failing input: an EVM address given as the Solana
    destination is not base-58; the conversation throws instead of
    answering with the invalid-address message. *)
Lemma transferSOL_malformed_address_throws :
  fst (transferSOLConversation Example.env_ok Example.ctx_alice
         (Example.sol_session "0x8ba1f109551bd432803012645ac136ddd64dba72"
                              "1"))
  = Thrown (Error "Non-base58 character")
  /\ events (transferSOLConversation Example.env_ok Example.ctx_alice)
            (Example.sol_session "0x8ba1f109551bd432803012645ac136ddd64dba72"
                                 "1") =
       [ EFindOne (js "1001") (inl (Some Example.alice));
         EReply (MsgAskAddress SOLANA);
         EWaitFor (Some (js "0x8ba1f109551bd432803012645ac136ddd64dba72")) ].
Proof. split; reflexivity. Qed.

(** ** Error propagation *)


(** An error of the first store lookup leaves every handler. *)
Lemma lookup_error_escapes
  (env : Env) (ctx : BotContext) (w : World)
  (telegramId : jsstring) (e : error) :
  truthy (ctx_telegramId ctx) = Some telegramId ->
  db_findOne_error env (now w) = Some e ->
  fst (handleStart env ctx w) = Thrown e
  /\ fst (handleWallet env ctx w) = Thrown e
  /\ fst (transferETHConversation env ctx w) = Thrown e
  /\ fst (transferSOLConversation env ctx w) = Thrown e.
Proof.
  intros Hid Hdb.
  unfold handleStart, handleWallet, transferETHConversation,
    transferSOLConversation.
  rewrite Hid. unfold_M. unfold_M. simpl_M. rewrite Hdb. auto.
Qed.





(** ** Displayed numbers *)

Lemma digits_from_shift (acc : Z) (ds : jsstring) :
  digits_from acc ds = acc * 10 ^ Z.of_nat (length ds) + digits_value ds.
Proof.
  unfold digits_value, digits_from. revert acc.
  induction ds as [|c ds IH]; intros acc; simpl.
  - lia.
  - rewrite (IH (acc * 10 + (Z.of_N c - 48))),
            (IH (0 * 10 + (Z.of_N c - 48))).
    cbn [length]. rewrite Nat2Z.inj_succ, Z.pow_succ_r by lia. ring.
Qed.

Lemma digits_value_app (a b : jsstring) :
  digits_value (a ++ b)
  = digits_value a * 10 ^ Z.of_nat (length b) + digits_value b.
Proof.
  unfold digits_value at 1. unfold digits_from.
  rewrite fold_left_app. apply digits_from_shift.
Qed.

Lemma digits_value_zeros (k : nat) : digits_value (replicate k 48%N) = 0.
Proof.
  induction k as [|k IH]; [reflexivity|].
  change (replicate (S k) 48%N) with ([48%N] ++ replicate k 48%N).
  rewrite digits_value_app, IH. reflexivity.
Qed.

Lemma all_digits_zeros (k : nat) : forallb is_digit (replicate k 48%N) = true.
Proof. induction k; simpl; auto. Qed.

Lemma last_digit_is_digit (n : N) : is_digit (48 + n mod 10)%N = true.
Proof.
  unfold is_digit.
  assert (n mod 10 < 10)%N by (apply N.mod_upper_bound; lia).
  generalize dependent (n mod 10)%N. intros d Hd.
  apply andb_true_iff. rewrite !N.leb_le. lia.
Qed.

Lemma last_digit_value (n : N) :
  digits_value [(48 + n mod 10)%N] = Z.of_N (n mod 10).
Proof.
  unfold digits_value, digits_from. cbn [fold_left].
  rewrite N2Z.inj_add. generalize (Z.of_N (n mod 10)). intros z.
  change (Z.of_N 48) with 48. ring.
Qed.

Lemma digits_fuel_spec (fuel : nat) (n : N) (acc : jsstring) :
  (n < 2 ^ N.of_nat (S fuel))%N ->
  exists ds,
    digits_fuel (S fuel) n acc = ds ++ acc /\ ds <> []
    /\ forallb is_digit ds = true /\ digits_value ds = Z.of_N n.
Proof.
  revert n acc. induction fuel as [|fuel IH]; intros n acc Hn.
  - assert (n < 10)%N as Hsmall
      by (change (2 ^ N.of_nat 1)%N with 2%N in Hn; lia).
    cbn [digits_fuel]. rewrite (N.div_small n 10 Hsmall). cbn [N.eqb].
    exists [(48 + n mod 10)%N]. repeat split; try discriminate.
    + cbn [forallb]. rewrite last_digit_is_digit. reflexivity.
    + rewrite last_digit_value, N.mod_small by exact Hsmall. reflexivity.
  - cbn [digits_fuel]. destruct (n / 10 =? 0)%N eqn:Hq.
    + apply N.eqb_eq in Hq.
      exists [(48 + n mod 10)%N]. repeat split; try discriminate.
      * cbn [forallb]. rewrite last_digit_is_digit. reflexivity.
      * rewrite last_digit_value. pose proof (N.div_mod n 10). lia.
    + apply N.eqb_neq in Hq.
      destruct (IH (n / 10)%N ((48 + n mod 10)%N :: acc))
        as (ds & Heq & Hne & Hall & Hval).
      { rewrite Nat2N.inj_succ, N.pow_succ_r' in Hn.
        assert (n / 10 <= n / 2)%N by (apply N.div_le_compat_l; lia).
        assert (n / 2 < 2 ^ N.of_nat (S fuel))%N
          by (apply N.Div0.div_lt_upper_bound; lia).
        lia. }
      exists (ds ++ [(48 + n mod 10)%N]).
      rewrite <- app_assoc. split; [exact Heq|]. repeat split.
      * destruct ds; discriminate.
      * rewrite forallb_app, Hall. cbn [forallb].
        rewrite last_digit_is_digit. reflexivity.
      * rewrite digits_value_app, Hval, last_digit_value.
        cbn [length]. pose proof (N.div_mod n 10). lia.
Qed.

Lemma digits_spec (n : N) :
  digits n <> [] /\ forallb is_digit (digits n) = true
  /\ digits_value (digits n) = Z.of_N n.
Proof.
  unfold digits.
  destruct (digits_fuel_spec (N.to_nat (N.log2 n)) n [])
    as (ds & Heq & Hne & Hall & Hval).
  - rewrite Nat2N.inj_succ, N2Nat.id.
    destruct (N.eq_dec n 0%N) as [->|Hn]; [reflexivity|].
    apply N.log2_spec. lia.
  - rewrite Heq, app_nil_r. auto.
Qed.

Lemma digit_not_point (c : N) : is_digit c = true -> (c =? 46)%N = false.
Proof.
  unfold is_digit. intros H. apply andb_true_iff in H as [H1 H2].
  apply N.leb_le in H1, H2. apply N.eqb_neq. lia.
Qed.

Lemma split_point_digits (a : jsstring) :
  forallb is_digit a = true -> split_point a = (a, None).
Proof.
  induction a as [|c a IH]; [reflexivity|].
  cbn [forallb split_point]. intros H.
  apply andb_true_iff in H as [Hc Ha].
  rewrite (digit_not_point c Hc), (IH Ha). reflexivity.
Qed.

Lemma split_point_app (a b : jsstring) :
  forallb is_digit a = true -> split_point (a ++ 46%N :: b) = (a, Some b).
Proof.
  induction a as [|c a IH]; [reflexivity|].
  cbn [forallb split_point app]. intros H.
  apply andb_true_iff in H as [Hc Ha].
  rewrite (digit_not_point c Hc), (IH Ha). reflexivity.
Qed.

Lemma decimal_parts_integer (a : jsstring) :
  a <> [] -> forallb is_digit a = true ->
  decimal_parts a = Some (digits_value a, O).
Proof.
  intros Hne Ha. unfold decimal_parts.
  rewrite (split_point_digits a Ha), Ha.
  destruct a; [contradiction|reflexivity].
Qed.

Lemma decimal_parts_fraction (a b : jsstring) :
  a <> [] -> b <> [] ->
  forallb is_digit a = true -> forallb is_digit b = true ->
  decimal_parts (a ++ js "." ++ b) = Some (digits_value (a ++ b), length b).
Proof.
  intros Hna Hnb Ha Hb. unfold decimal_parts.
  change (js "." ++ b) with (46%N :: b).
  rewrite (split_point_app a b Ha), Ha, Hb.
  destruct a; [contradiction|]. destruct b; [contradiction|]. reflexivity.
Qed.

Lemma drop_zeros_spec (s : jsstring) :
  exists j, s = replicate j 48%N ++ drop_zeros s.
Proof.
  induction s as [|c s (j & IH)]; [exists O; reflexivity|].
  cbn [drop_zeros]. destruct (c =? 48)%N eqn:Hc.
  - apply N.eqb_eq in Hc. subst c. exists (S j).
    cbn [replicate app]. rewrite <- IH. reflexivity.
  - exists O. reflexivity.
Qed.

Lemma rev_zeros (j : nat) : rev (replicate j 48%N) = replicate j 48%N.
Proof.
  induction j as [|j IH]; [reflexivity|].
  cbn [replicate rev]. rewrite IH. symmetry. apply replicate_cons_app.
Qed.

Lemma strip_trailing_zeros_spec (s : jsstring) :
  exists j, s = strip_trailing_zeros s ++ replicate j 48%N.
Proof.
  unfold strip_trailing_zeros.
  destruct (drop_zeros_spec (rev s)) as (j & Hj).
  exists j. rewrite <- (rev_involutive s) at 1.
  rewrite Hj at 1. rewrite rev_app_distr, rev_zeros. reflexivity.
Qed.

Lemma digits_first_not_minus (n : N) : startsWith (js "-") (digits n) = false.
Proof.
  destruct (digits_spec n) as (Hne & Hall & _).
  destruct (digits n) as [|c ds]; [contradiction|].
  unfold startsWith. change (js "-") with [45%N].
  apply bool_decide_eq_false. cbn [length take]. intros [= Hc]. subst c.
  cbn [forallb] in Hall. apply andb_true_iff in Hall as [Hd _].
  discriminate.
Qed.

(** [formatEther] prints exactly [wei / 10^18]: the numeral it returns
    spells [v] with [k <= 18] digits after the point, and
    [v * 10^(18-k) = wei]. *)
Lemma formatEther_denotes (wei : Z) :
  0 <= wei ->
  exists v k,
    decimal_parts (formatEther wei) = Some (v, k)
    /\ (k <= 18)%nat /\ v * 10 ^ Z.of_nat (18 - k) = wei.
Proof.
  intros Hwei. unfold formatEther, formatUnits, Z_toString.
  replace (wei <? 0) with false by (symmetry; apply Z.ltb_ge; lia).
  rewrite digits_first_not_minus.
  destruct (digits_spec (Z.to_N wei)) as (Hne & Hall & Hval).
  rewrite Z2N.id in Hval by lia.
  set (D := padStart 18 48%N (digits (Z.to_N wei))).
  assert (HD : forallb is_digit D = true).
  { unfold D, padStart. rewrite forallb_app, all_digits_zeros, Hall.
    reflexivity. }
  assert (HvD : digits_value D = wei).
  { unfold D, padStart. rewrite digits_value_app, digits_value_zeros. lia. }
  assert (HlD : (18 <= length D)%nat).
  { unfold D, padStart. rewrite length_app, length_replicate. lia. }
  set (integer := take (length D - 18) D).
  set (fraction := drop (length D - 18) D).
  assert (Hsplit : D = integer ++ fraction)
    by (symmetry; apply take_drop).
  assert (Hlf : length fraction = 18%nat)
    by (unfold fraction; rewrite length_drop; lia).
  assert (Hdigits : forallb is_digit integer = true
                    /\ forallb is_digit fraction = true).
  { rewrite Hsplit, forallb_app in HD. apply andb_true_iff in HD. exact HD. }
  destruct Hdigits as [Hi Hf].
  destruct (strip_trailing_zeros_spec fraction) as (j & Hj).
  set (F := strip_trailing_zeros fraction) in *.
  assert (HF : forallb is_digit F = true).
  { rewrite Hj, forallb_app in Hf. apply andb_true_iff in Hf. tauto. }
  assert (HlF : (length F + j = 18)%nat).
  { rewrite Hj, length_app, length_replicate in Hlf. exact Hlf. }
  assert (Hwei' : wei = digits_value integer * 10 ^ 18
                        + digits_value F * 10 ^ Z.of_nat j).
  { rewrite <- HvD, Hsplit, digits_value_app, Hlf.
    rewrite Hj at 1. rewrite digits_value_app, digits_value_zeros.
    rewrite length_replicate. change (Z.of_nat 18) with 18. lia. }
  set (I := if falsy (Some integer) then js "0" else integer).
  assert (HI : I <> [] /\ forallb is_digit I = true
               /\ digits_value I = digits_value integer).
  { unfold I. destruct integer; cbn; repeat split; auto; discriminate. }
  destruct HI as (HIne & HId & HIv).
  cbn [app]. destruct F as [|c F'] eqn:HFeq.
  - cbn [falsy]. rewrite app_nil_r.
    exists (digits_value I), O. split; [|split].
    + apply decimal_parts_integer; assumption.
    + lia.
    + rewrite HIv, Hwei'. cbn. lia.
  - cbn [falsy]. rewrite <- HFeq in *.
    exists (digits_value (I ++ F)), (length F). split; [|split].
    + apply decimal_parts_fraction; auto. rewrite HFeq. discriminate.
    + lia.
    + rewrite digits_value_app, HIv, Hwei'.
      replace (18 - length F)%nat with j by lia.
      replace 18 with (Z.of_nat (length F) + Z.of_nat j) by lia.
      rewrite Z.pow_add_r by lia. ring.
Qed.

(** [toFixed(4)] on a finite number in [0, 10^21): the numeral has exactly
    four digits after the point and spells the integer nearest to
    [x * 10^4], the larger one on a tie. *)
Lemma toFixed4_denotes (toString : number -> jsstring) (q : Q) :
  (0 <= q)%Q -> (q < inject_Z (10 ^ 21))%Q ->
  decimal_parts (toFixed toString (Num q) 4)
  = Some (Qfloor (q * inject_Z (10 ^ 4) + (1 # 2)), 4%nat).
Proof.
  intros Hpos Hlt. unfold toFixed.
  assert (Hnum : 0 <= Qnum q).
  { unfold Qle in Hpos. cbn in Hpos. lia. }
  assert (Habs : Qabs q = q).
  { destruct q as [n d]. cbn in *. rewrite Z.abs_eq by lia. reflexivity. }
  rewrite Habs.
  replace (Qneg q) with false
    by (symmetry; unfold Qneg; apply Z.ltb_ge; lia).
  replace (Qle_bool (inject_Z (10 ^ 21)) q) with false.
  2:{ symmetry. apply not_true_is_false. intros H.
      apply Qle_bool_iff in H. apply (Qlt_not_le _ _ Hlt H). }
  change (Z.of_nat 4) with 4.
  set (n := Qfloor (q * inject_Z (10 ^ 4) + (1 # 2))).
  assert (Hn : 0 <= n).
  { unfold n. change 0 with (Qfloor 0). apply Qfloor_resp_le.
    apply Qle_trans with (0 * inject_Z (10 ^ 4) + 0)%Q; [discriminate|].
    apply Qplus_le_compat; [|discriminate].
    apply Qmult_le_compat_r; [exact Hpos|discriminate]. }
  destruct (digits_spec (Z.to_N n)) as (Hne & Hall & Hval).
  rewrite Z2N.id in Hval by lia.
  set (m := if (length (digits (Z.to_N n)) <=? 4)%nat
            then replicate (4 + 1 - length (digits (Z.to_N n))) 48%N
                 ++ digits (Z.to_N n)
            else digits (Z.to_N n)).
  assert (Hm : forallb is_digit m = true /\ digits_value m = n
               /\ (5 <= length m)%nat).
  { unfold m. destruct (length (digits (Z.to_N n)) <=? 4)%nat eqn:Hlen.
    - apply Nat.leb_le in Hlen.
      rewrite forallb_app, all_digits_zeros, Hall.
      rewrite digits_value_app, digits_value_zeros.
      rewrite length_app, length_replicate. repeat split; lia.
    - apply Nat.leb_gt in Hlen. repeat split; auto; lia. }
  destruct Hm as (Hmd & Hmv & Hml).
  cbn [Nat.eqb app].
  set (a := take (length m - 4) m).
  set (b := drop (length m - 4) m).
  assert (Hab : m = a ++ b) by (symmetry; apply take_drop).
  assert (Hla : a <> []).
  { intros Ha. apply (f_equal length) in Ha. unfold a in Ha.
    rewrite length_take in Ha. cbn in Ha. lia. }
  assert (Hlb : length b = 4%nat)
    by (unfold b; rewrite length_drop; lia).
  assert (Hd : forallb is_digit a = true /\ forallb is_digit b = true).
  { rewrite Hab, forallb_app in Hmd. apply andb_true_iff in Hmd. exact Hmd. }
  destruct Hd as [Hda Hdb].
  rewrite decimal_parts_fraction; auto.
  - rewrite <- Hab, Hmv, Hlb. reflexivity.
  - intros Hb. rewrite Hb in Hlb. discriminate.
Qed.

(** *** The binary64 model *)

Lemma round_half_even_near (num den : Z) :
  0 <= num -> 0 < den ->
  0 <= round_half_even num den
  /\ - den <= 2 * (round_half_even num den * den - num) <= den.
Proof.
  intros Hnum Hden. unfold round_half_even. cbv zeta.
  pose proof (Z.div_mod num den ltac:(lia)) as Hdm.
  pose proof (Z.mod_pos_bound num den Hden) as Hmod.
  pose proof (Z.div_pos num den Hnum Hden) as Hdiv.
  set (fl := num / den) in *. set (r := num mod den) in *.
  clearbody fl r.
  assert (Hexact : forall k, 2 * ((fl + k) * den - num) = 2 * k * den - 2 * r)
    by (intros k; rewrite Hdm; ring).
  pose proof (Hexact 0) as H0. pose proof (Hexact 1) as H1.
  rewrite Z.add_0_r in H0.
  destruct (2 * r ?= den) eqn:Hcmp.
  - apply Z.compare_eq in Hcmp. destruct (Z.even fl); split.
    + lia.
    + clear Hexact H1. lia.
    + lia.
    + clear Hexact H0. lia.
  - rewrite Z.compare_lt_iff in Hcmp. clear Hexact H1. split; lia.
  - rewrite Z.compare_gt_iff in Hcmp. clear Hexact H0. split; lia.
Qed.

Lemma Qred_integer (n : Z) : Qred (inject_Z n) = inject_Z n.
Proof. apply Qcanon.Qred_identity. cbn. apply Z.gcd_1_r. Qed.

(** An integer below [2^53] is a double. *)
Lemma num_of_Z_exact (n : Z) :
  0 <= n < 2 ^ 53 -> num_of_Z n = Num (inject_Z n).
Proof.
  intros Hn. unfold num_of_Z, RN64. cbn [Qnum Qden inject_Z].
  rewrite Z.abs_eq by lia.
  destruct (n =? 0) eqn:Hz.
  { apply Z.eqb_eq in Hz. subst n. reflexivity. }
  apply Z.eqb_neq in Hz.
  assert (Hlog : 0 <= Z.log2 n < 53).
  { split; [apply Z.log2_nonneg|]. apply Z.log2_lt_pow2; lia. }
  assert (He : floor_log2 n 1 = Z.log2 n).
  { unfold floor_log2. change (Z.log2 1) with 0. rewrite Z.sub_0_r.
    replace (0 <=? Z.log2 n) with true by (symmetry; apply Z.leb_le; lia).
    replace (1 * 2 ^ Z.log2 n <=? n) with true; [reflexivity|].
    symmetry. apply Z.leb_le.
    pose proof (Z.log2_spec n ltac:(lia)). lia. }
  rewrite He.
  replace (Z.max (Z.log2 n) (-1022)) with (Z.log2 n) by lia.
  replace (n <? 0) with false by (symmetry; apply Z.ltb_ge; lia).
  set (E := Z.log2 n - 52).
  destruct (0 <=? E) eqn:HE.
  - apply Z.leb_le in HE. assert (E = 0) as -> by (unfold E in *; lia).
    change (2 ^ 0) with 1. rewrite !Z.mul_1_r.
    assert (Hm : round_half_even n 1 = n).
    { unfold round_half_even. rewrite Z.mod_1_r, Z.div_1_r. reflexivity. }
    rewrite Hm.
    replace (2 ^ 1024 <=? n) with false.
    2:{ symmetry. apply Z.leb_gt.
        apply Z.lt_trans with (2 ^ 53); [lia|].
        apply Z.pow_lt_mono_r; lia. }
    cbn [andb]. rewrite Qred_integer. reflexivity.
  - apply Z.leb_gt in HE. cbn [andb].
    assert (Hpow : 0 < 2 ^ (- E)) by (apply Z.pow_pos_nonneg; lia).
    assert (Hm : round_half_even (n * 2 ^ (- E)) 1 = n * 2 ^ (- E)).
    { unfold round_half_even. rewrite Z.mod_1_r, Z.div_1_r. reflexivity. }
    rewrite Hm. f_equal.
    rewrite <- (Qred_integer n). apply Qred_complete.
    unfold Qeq. cbn [Qnum Qden inject_Z].
    rewrite Z2Pos.id by lia. lia.
Qed.

(** A positive rational below [2^64] rounds to a finite double that
    exceeds it by less than [2^12]. *)
Lemma RN64_crude (q : Q) :
  0 < Qnum q -> Qnum q < 2 ^ 64 * Z.pos (Qden q) ->
  exists q', RN64 q = Num q' /\ (0 <= q')%Q /\ (q' <= q + inject_Z 4096)%Q.
Proof.
  intros Hp Hlt. unfold RN64.
  rewrite Z.abs_eq by lia.
  set (p := Qnum q) in *. set (d := Z.pos (Qden q)) in *.
  assert (Hd : 0 < d) by (unfold d; lia).
  replace (p =? 0) with false by (symmetry; apply Z.eqb_neq; lia).
  replace (p <? 0) with false by (symmetry; apply Z.ltb_ge; lia).
  set (e := floor_log2 p d).
  assert (He : e <= 64).
  { assert (Z.log2 p - Z.log2 d <= 64).
    { pose proof (Z.log2_spec d Hd) as [_ Hdu].
      pose proof (Z.log2_nonneg d).
      assert (p < 2 ^ (65 + Z.log2 d)).
      { replace (65 + Z.log2 d) with (64 + Z.succ (Z.log2 d)) by lia.
        rewrite Z.pow_add_r by lia. nia. }
      apply Z.log2_lt_pow2 in H0; lia. }
    unfold e, floor_log2.
    destruct (if 0 <=? Z.log2 p - Z.log2 d then _ else _); lia. }
  set (E := Z.max e (-1022) - 52).
  assert (HE : E <= 12) by (unfold E; lia).
  destruct (0 <=? E) eqn:HE0.
  - apply Z.leb_le in HE0.
    assert (Hpow : 0 < 2 ^ E <= 4096).
    { split; [apply Z.pow_pos_nonneg; lia|].
      change 4096 with (2 ^ 12). apply Z.pow_le_mono_r; lia. }
    destruct (round_half_even_near p (d * 2 ^ E)) as [Hm0 Hm]; [lia|nia|].
    set (m := round_half_even p (d * 2 ^ E)) in *.
    assert (Hbound : m * 2 ^ E * d <= p + 4096 * d) by nia.
    replace (2 ^ 1024 <=? m * 2 ^ E) with false.
    2:{ symmetry. apply Z.leb_gt.
        apply Z.lt_le_trans with (2 ^ 64 + 4097); [nia|].
        change (2 ^ 64 + 4097 <= 2 ^ 1024).
        apply Z.le_trans with (2 ^ 65); [lia|].
        apply Z.pow_le_mono_r; lia. }
    cbn [andb]. eexists. split; [reflexivity|]. split.
    + rewrite Qred_correct. unfold Qle. cbn. nia.
    + rewrite Qred_correct. unfold Qle, Qplus. cbn [Qnum Qden inject_Z].
      fold p. fold d. rewrite Pos.mul_1_r. fold d. nia.
  - apply Z.leb_gt in HE0. cbn [andb].
    assert (Hpow : 1 <= 2 ^ (- E)).
    { change 1 with (2 ^ 0). apply Z.pow_le_mono_r; lia. }
    destruct (round_half_even_near (p * 2 ^ (- E)) d) as [Hm0 Hm];
      [nia|lia|].
    set (m := round_half_even (p * 2 ^ (- E)) d) in *.
    eexists. split; [reflexivity|]. split.
    + rewrite Qred_correct. unfold Qle. cbn. lia.
    + rewrite Qred_correct. unfold Qle, Qplus. cbn [Qnum Qden inject_Z].
      rewrite Z2Pos.id by lia.
      fold p. fold d. rewrite Pos.mul_1_r. fold d. nia.
Qed.

(** [floor_log2 p d] is the binary exponent of [p/d]. *)
Lemma floor_log2_spec (p d : Z) :
  0 < p -> 0 < d ->
  (0 <= floor_log2 p d ->
   d * 2 ^ floor_log2 p d <= p < d * 2 ^ (floor_log2 p d + 1))
  /\ (floor_log2 p d < 0 ->
      d <= p * 2 ^ (- floor_log2 p d) < 2 * d).
Proof.
  intros Hp Hd. unfold floor_log2.
  pose proof (Z.log2_spec p Hp) as [Hpl Hpu].
  pose proof (Z.log2_spec d Hd) as [Hdl Hdu].
  pose proof (Z.log2_nonneg p) as Hlp. pose proof (Z.log2_nonneg d) as Hld.
  set (lp := Z.log2 p) in *. set (ld := Z.log2 d) in *.
  rewrite <- Z.add_1_r in Hpu, Hdu.
  assert (Hp2 : forall a, 0 <= a -> 2 ^ (a + 1) = 2 * 2 ^ a).
  { intros a Ha. rewrite Z.pow_add_r by lia. change (2 ^ 1) with 2. ring. }
  assert (Hpos : forall a, 0 <= a -> 0 < 2 ^ a).
  { intros a Ha. apply Z.pow_pos_nonneg; lia. }
  destruct (0 <=? lp - ld) eqn:Hk.
  - apply Z.leb_le in Hk.
    assert (Hlpk : 2 ^ lp = 2 ^ ld * 2 ^ (lp - ld)).
    { rewrite <- Z.pow_add_r by lia. f_equal. lia. }
    pose proof (Hpos ld Hld). pose proof (Hpos (lp - ld) Hk).
    rewrite (Hp2 lp Hlp) in Hpu. rewrite (Hp2 ld Hld) in Hdu.
    destruct (d * 2 ^ (lp - ld) <=? p) eqn:Hge.
    + apply Z.leb_le in Hge. split; [intros _|lia].
      rewrite (Hp2 (lp - ld) Hk). split; [exact Hge|nia].
    + apply Z.leb_gt in Hge.
      destruct (Z.eq_dec (lp - ld) 0) as [Hz|Hz].
      * rewrite Hz in *. change (2 ^ 0) with 1 in *.
        split; [lia|intros _].
        replace (- (0 - 1)) with 1 by lia. change (2 ^ 1) with 2. nia.
      * split; [intros _|lia].
        replace (lp - ld - 1 + 1) with (lp - ld) by lia.
        split; [|exact Hge].
        assert (Hk1 : 2 ^ (lp - ld) = 2 * 2 ^ (lp - ld - 1)).
        { rewrite <- (Hp2 (lp - ld - 1)) by lia. f_equal. lia. }
        pose proof (Hpos (lp - ld - 1) ltac:(lia)). nia.
  - apply Z.leb_gt in Hk.
    assert (Hldk : 2 ^ ld = 2 ^ lp * 2 ^ (- (lp - ld))).
    { rewrite <- Z.pow_add_r by lia. f_equal. lia. }
    pose proof (Hpos lp Hlp). pose proof (Hpos (- (lp - ld)) ltac:(lia)).
    rewrite (Hp2 lp Hlp) in Hpu. rewrite (Hp2 ld Hld) in Hdu.
    destruct (d <=? p * 2 ^ (- (lp - ld))) eqn:Hge.
    + apply Z.leb_le in Hge. split; [lia|intros _].
      split; [exact Hge|nia].
    + apply Z.leb_gt in Hge. split; [lia|intros _].
      replace (- (lp - ld - 1)) with (- (lp - ld) + 1) by lia.
      rewrite (Hp2 (- (lp - ld))) by lia. split; nia.
Qed.

(** In the normal range below [2^52], [RN64] is off by at most half a unit
    in the last place: a relative error of [2^-53]. *)
Lemma RN64_half_ulp (q : Q) :
  0 < Qnum q ->
  -1022 <= floor_log2 (Qnum q) (Z.pos (Qden q)) <= 51 ->
  exists q',
    RN64 q = Num q' /\ (Qabs (q' - q) * inject_Z (2 ^ 53) <= q)%Q.
Proof.
  destruct q as [p dp]. cbn [Qnum Qden]. intros Hp He.
  unfold RN64. cbn [Qnum Qden]. rewrite Z.abs_eq by lia.
  set (d := Z.pos dp) in *. assert (Hd : 0 < d) by (unfold d; lia).
  set (e := floor_log2 p d) in *.
  replace (p =? 0) with false by (symmetry; apply Z.eqb_neq; lia).
  replace (p <? 0) with false by (symmetry; apply Z.ltb_ge; lia).
  replace (Z.max e (-1022)) with e by lia.
  replace (0 <=? e - 52) with false by (symmetry; apply Z.leb_gt; lia).
  cbn [andb].
  replace (- (e - 52)) with (52 - e) by lia.
  set (D := 2 ^ (52 - e)).
  assert (HD : 0 < D) by (apply Z.pow_pos_nonneg; lia).
  destruct (round_half_even_near (p * D) d) as [Hm0 Hm]; [nia|lia|].
  set (m := round_half_even (p * D) d) in *.
  assert (Hscale : d * 2 ^ 52 <= p * D).
  { destruct (floor_log2_spec p d Hp Hd) as [Hnonneg Hneg]. fold e in Hnonneg, Hneg.
    destruct (Z_le_gt_dec 0 e) as [He0|He0].
    - destruct (Hnonneg He0) as [Hlow _].
      assert (H52 : 2 ^ 52 = 2 ^ e * D).
      { unfold D. rewrite <- Z.pow_add_r by lia. f_equal. lia. }
      rewrite H52. nia.
    - destruct (Hneg ltac:(lia)) as [Hlow _].
      assert (HDe : D = 2 ^ (- e) * 2 ^ 52).
      { unfold D. rewrite <- Z.pow_add_r by lia. f_equal. lia. }
      rewrite HDe. assert (0 < 2 ^ 52) by reflexivity. nia. }
  eexists. split; [reflexivity|].
  rewrite Qred_correct.
  unfold Qle, Qabs, Qminus, Qplus, Qopp, Qmult. cbn [Qnum Qden inject_Z].
  rewrite Z2Pos.id by lia. fold d.
  rewrite !Pos2Z.inj_mul, Z2Pos.id by lia. fold d.
  change (Z.pos 1) with 1. rewrite !Z.mul_1_r.
  assert (Habs : 2 * Z.abs (m * d + - p * D) <= d) by lia.
  change (2 ^ 53) with (2 * 2 ^ 52).
  assert (Hstep : Z.abs (m * d + - p * D) * (2 * 2 ^ 52) <= p * D) by nia.
  nia.
Qed.


(** [solBalance / 10 ** 9] for a balance below [2^53]: the double nearest to
    the exact quotient, a finite number below [10^21]. *)
Lemma solana_quotient (lamports : Z) :
  0 <= lamports < 2 ^ 53 ->
  exists q,
    num_div (num_of_Z lamports) (pow10 9) = Num q
    /\ RN64 (inject_Z lamports / inject_Z (10 ^ 9)) = Num q
    /\ (0 <= q)%Q /\ (q < inject_Z (10 ^ 21))%Q.
Proof.
  intros Hn. rewrite (num_of_Z_exact lamports Hn).
  unfold num_div, pow10.
  replace (Qzero (inject_Z (10 ^ 9))) with false by reflexivity.
  destruct (Z.eq_dec lamports 0) as [->|Hz].
  { exists 0%Q. repeat split; try reflexivity; discriminate. }
  assert (Hquot : (inject_Z lamports / inject_Z (10 ^ 9))%Q
                  = Qmake (lamports * 1) 1000000000) by reflexivity.
  rewrite Hquot.
  destruct (RN64_crude (Qmake (lamports * 1) 1000000000))
    as (q & Hq & Hq0 & Hqle).
  - cbn. lia.
  - cbn. lia.
  - exists q. repeat split; auto.
    eapply Qle_lt_trans; [exact Hqle|].
    unfold Qlt, Qplus. cbn. lia.
Qed.

(** The quotient shown for a Solana balance is [lamports / 10^9] up to a
    relative error of [2^-53]. *)
Lemma solana_quotient_accuracy (lamports : Z) (q : Q) :
  0 <= lamports < 2 ^ 53 ->
  RN64 (inject_Z lamports / inject_Z (10 ^ 9)) = Num q ->
  (Qabs (q - inject_Z lamports / inject_Z (10 ^ 9)) * inject_Z (2 ^ 53)
   <= inject_Z lamports / inject_Z (10 ^ 9))%Q.
Proof.
  intros Hn Hq.
  destruct (Z.eq_dec lamports 0) as [->|Hz].
  { injection Hq as <-. discriminate. }
  assert (Hquot : (inject_Z lamports / inject_Z (10 ^ 9))%Q
                  = Qmake (lamports * 1) 1000000000) by reflexivity.
  rewrite Hquot in *.
  destruct (RN64_half_ulp (Qmake (lamports * 1) 1000000000))
    as (q' & Hq' & Hacc).
  - cbn. lia.
  - cbn [Qnum Qden]. rewrite Z.mul_1_r. unfold floor_log2.
    change (Z.log2 (Z.pos 1000000000)) with 29.
    assert (0 <= Z.log2 lamports < 53).
    { split; [apply Z.log2_nonneg|]. apply Z.log2_lt_pow2; lia. }
    destruct (if 0 <=? Z.log2 lamports - 29 then _ else _); lia.
  - rewrite Hq in Hq'. injection Hq' as ->. exact Hacc.
Qed.

(** C9. When both queries answer, the ETH balance is shown as the exact
    decimal expansion of [wei / 10^18], and the SOL balance with exactly
    four digits after the point, as the integer nearest to [x * 10^4],
    where [x] is the double nearest to [lamports / 10^9] (within a relative
    error of [2^-53] of it): the division is applied to the balance as
    received, and only the quotient is rounded. *)
Theorem balances_displayed_in_units
  (env : Env) (ctx : BotContext) (w : World)
  (telegramId : jsstring) (user : User) (key : PublicKey)
  (wei lamports : Z) :
  truthy (ctx_telegramId ctx) = Some telegramId ->
  db_findOne_error env (now w) = None ->
  store w !! telegramId = Some user ->
  PublicKey_decode env (solanaAddress user) = inl key ->
  (forall t, base_getBalance env t (evmAddress user) = inl wei) ->
  (forall t, solana_getBalance env t key = inl lamports) ->
  0 <= wei ->
  0 <= lamports < 2 ^ 53 ->
  exists eth sol v k q,
    events (handleWallet env ctx) w =
      [ EFindOne telegramId (inl (Some user));
        EReply (MsgWallets (evmAddress user) (solanaAddress user));
        EGetBalance (evmAddress user) (inl wei);
        EReply (MsgEthBalance eth);
        ESolanaGetBalance key (inl lamports);
        EReply (MsgSolBalance sol) ]
    /\ decimal_parts eth = Some (v, k)
    /\ (k <= 18)%nat /\ v * 10 ^ Z.of_nat (18 - k) = wei
    /\ RN64 (inject_Z lamports / inject_Z (10 ^ 9)) = Num q
    /\ (Qabs (q - inject_Z lamports / inject_Z (10 ^ 9)) * inject_Z (2 ^ 53)
        <= inject_Z lamports / inject_Z (10 ^ 9))%Q
    /\ decimal_parts sol
       = Some (Qfloor (q * inject_Z (10 ^ 4) + (1 # 2)), 4%nat).
Proof.
  intros Hid Hdb Huser Hkey Hevm Hsol Hwei Hlamports.
  destruct (formatEther_denotes wei Hwei) as (v & k & Heth & Hk & Hv).
  destruct (solana_quotient lamports Hlamports) as (q & Hdiv & Hq & Hq0 & Hq21).
  exists (formatEther wei),
         (toFixed (Number_toString env)
                  (num_div (num_of_Z lamports) (pow10 9)) 4),
         v, k, q.
  split; [|split; [exact Heth|split; [exact Hk|split; [exact Hv|split;
          [exact Hq|split;
             [apply solana_quotient_accuracy; assumption
             |rewrite Hdiv; apply toFixed4_denotes; assumption]]]]]].
  unfold events, handleWallet. rewrite Hid.
  exec; list_events;
    repeat match goal with
           | H : base_getBalance _ _ _ = _ |- _ =>
               rewrite Hevm in H; simplify_eq
           | H : solana_getBalance _ _ _ = _ |- _ =>
               rewrite Hsol in H; simplify_eq
           end.
  reflexivity.
Qed.

Lemma balances_displayed_in_units_witness :
  exists eth sol v k q,
    events (handleWallet Example.env_ok Example.ctx_alice)
           (mkWorld Example.registered [] []) =
      [ EFindOne (js "1001") (inl (Some Example.alice));
        EReply (MsgWallets (evmAddress Example.alice)
                           (solanaAddress Example.alice));
        EGetBalance (evmAddress Example.alice) (inl 1500000000000000000);
        EReply (MsgEthBalance eth);
        ESolanaGetBalance Example.alice_key (inl 1234567890);
        EReply (MsgSolBalance sol) ]
    /\ decimal_parts eth = Some (v, k)
    /\ (k <= 18)%nat /\ v * 10 ^ Z.of_nat (18 - k) = 1500000000000000000
    /\ RN64 (inject_Z 1234567890 / inject_Z (10 ^ 9)) = Num q
    /\ (Qabs (q - inject_Z 1234567890 / inject_Z (10 ^ 9))
         * inject_Z (2 ^ 53)
        <= inject_Z 1234567890 / inject_Z (10 ^ 9))%Q
    /\ decimal_parts sol
       = Some (Qfloor (q * inject_Z (10 ^ 4) + (1 # 2)), 4%nat).
Proof.
  apply (balances_displayed_in_units Example.env_ok Example.ctx_alice
           (mkWorld Example.registered [] []) (js "1001") Example.alice
           Example.alice_key 1500000000000000000 1234567890);
    try reflexivity; lia.
Defined.

(** The same run, evaluated: 1.5 ETH and 1.2346 SOL. *)
Example balances_displayed_example :
  events (handleWallet Example.env_ok Example.ctx_alice)
         (mkWorld Example.registered [] []) =
    [ EFindOne (js "1001") (inl (Some Example.alice));
      EReply (MsgWallets (evmAddress Example.alice)
                         (solanaAddress Example.alice));
      EGetBalance (evmAddress Example.alice) (inl 1500000000000000000);
      EReply (MsgEthBalance (js "1.5"));
      ESolanaGetBalance Example.alice_key (inl 1234567890);
      EReply (MsgSolBalance (js "1.2346")) ].
Proof. vm_compute. reflexivity. Qed.

(** ** Sample runs *)

(** A new identity is provisioned with both bindings, in one write. *)
Example provision_new_account :
  fst (handleStart Example.env_ok Example.ctx_alice (mkWorld ∅ [] []))
  = Returned tt
  /\ store (snd (handleStart Example.env_ok Example.ctx_alice
                   (mkWorld ∅ [] []))) = Example.registered
  /\ filter (fun ev => is_save ev = true)
            (events (handleStart Example.env_ok Example.ctx_alice)
                    (mkWorld ∅ [] []))
     = [ESave Example.alice (inl tt)].
Proof. vm_compute. auto. Qed.

(** Provisioning the same identity again writes nothing. *)
Example provision_twice :
  store (snd (handleStart Example.env_ok Example.ctx_alice
                (snd (handleStart Example.env_ok Example.ctx_alice
                        (mkWorld ∅ [] [])))))
  = Example.registered.
Proof. vm_compute. reflexivity. Qed.

(** When the Solana wallet cannot be created, nothing is written although
    the EVM wallet exists. *)
Example provision_partial_failure :
  store (snd (handleStart Example.env_solana_creation_fails Example.ctx_alice
                (mkWorld ∅ [] []))) = ∅
  /\ last (events (handleStart Example.env_solana_creation_fails
                     Example.ctx_alice)
                  (mkWorld ∅ [] []))
     = Some (EReply MsgCreateError).
Proof. vm_compute. auto. Qed.

(** A guided ETH transfer of 0.05 ETH, from the prompt to the receipt. *)
Example transfer_eth_completes :
  events (transferETHConversation Example.env_ok Example.ctx_alice)
         (Example.eth_session "0.05") =
    [ EFindOne (js "1001") (inl (Some Example.alice));
      EReply (MsgAskAddress EVM);
      EWaitFor (Some (js "0x8ba1f109551bd432803012645ac136ddd64dba72"));
      EReply (MsgAskAmount EVM);
      EWaitFor (Some (js "0.05"));
      EReply (MsgSending EVM (js "0.05")
                (js "0x8ba1f109551bd432803012645ac136ddd64dba72"));
      ESendTransaction Example.alice (js "0.05")
        (js "0x8ba1f109551bd432803012645ac136ddd64dba72");
      ESign (js "evm-share") (js "0x8ba1f109551bd432803012645ac136ddd64dba72")
            50000000000000000 (inl (js "0x5e9d"));
      EConsoleLog "Transaction Hash:";
      EEditMessageText 5
        (MsgSent EVM (js "0.05")
           (js "0x8ba1f109551bd432803012645ac136ddd64dba72") (js "0x5e9d")) ].
Proof. vm_compute. reflexivity. Qed.

(** The check of the single-chain send conversation looks at the prefix and
    the length only: it lets through what [isValidEthereumAddress]
    refuses. *)
Example legacy_check_accepts_non_hex :
  legacy_address_check (js "0x" ++ replicate 40 (chr "z")) = true
  /\ isValidEthereumAddress (js "0x" ++ replicate 40 (chr "z")) = false.
Proof. vm_compute. auto. Qed.

(** * Further properties of the handlers *)

(** ** Who is served *)

Lemma Z_toString_nonempty (z : Z) : Z_toString z <> [].
Proof.
  unfold Z_toString. destruct (z <? 0); [discriminate|].
  apply (digits_spec (Z.to_N z)).
Qed.

Lemma truthy_telegramId (ctx : BotContext) (f : From) :
  ctx_from ctx = Some f ->
  truthy (ctx_telegramId ctx) = Some (Z_toString (id f)).
Proof.
  intros Hf. unfold ctx_telegramId. rewrite Hf. cbn [fmap option_fmap option_map].
  unfold truthy, falsy.
  pose proof (Z_toString_nonempty (id f)) as Hne.
  destruct (Z_toString (id f)); [contradiction|reflexivity].
Qed.

Lemma no_sender_no_telegramId (ctx : BotContext) :
  ctx_from ctx = None -> truthy (ctx_telegramId ctx) = None.
Proof. intros Hf. unfold ctx_telegramId. rewrite Hf. reflexivity. Qed.

(** X1. A message without a sender gets the try-again reply from every
    handler and nothing else happens: no lookup, no change to the store or
    the inbox.  A message with a sender is never turned away like that: the
    decimal form of a sender id is never empty, so every handler goes on to
    look that id up. *)
Theorem sender_decides_service (env : Env) (ctx : BotContext) (w : World) :
  (ctx_from ctx = None ->
   handleStart env ctx w = (Returned tt, appended w [EReply MsgTryAgain])
   /\ handleWallet env ctx w = (Returned tt, appended w [EReply MsgTryAgain])
   /\ transferETHConversation env ctx w
      = (Returned tt, appended w [EReply MsgTryAgain])
   /\ transferSOLConversation env ctx w
      = (Returned tt, appended w [EReply MsgTryAgain]))
  /\ (forall f,
        ctx_from ctx = Some f ->
        (exists found rest,
           events (handleStart env ctx) w
           = EFindOne (Z_toString (id f)) found :: rest)
        /\ (exists found rest,
              events (handleWallet env ctx) w
              = EFindOne (Z_toString (id f)) found :: rest)
        /\ (exists found rest,
              events (transferETHConversation env ctx) w
              = EFindOne (Z_toString (id f)) found :: rest)
        /\ (exists found rest,
              events (transferSOLConversation env ctx) w
              = EFindOne (Z_toString (id f)) found :: rest)).
Proof.
  split.
  - intros Hf. apply no_sender_no_telegramId in Hf.
    unfold handleStart, handleWallet, transferETHConversation,
      transferSOLConversation.
    rewrite Hf. repeat split.
  - intros f Hf. apply truthy_telegramId in Hf.
    repeat split.
    + unfold events, handleStart, handleWallet. rewrite Hf.
      exec; list_events; do 2 eexists; reflexivity.
    + unfold events, handleWallet. rewrite Hf.
      exec; list_events; do 2 eexists; reflexivity.
    + unfold events, transferETHConversation. rewrite Hf.
      exec; list_events; do 2 eexists; reflexivity.
    + unfold events, transferSOLConversation. rewrite Hf.
      exec; list_events; do 2 eexists; reflexivity.
Qed.

(** ** Unregistered senders *)

(** X2. A sender without an Account is told so and nothing else happens:
    [handleWallet] answers that no account was found, both transfer
    conversations answer that the sender has to register first, without
    prompting for an address, taking a message from the inbox or touching
    the store. *)
Theorem unregistered_sender_is_turned_away
  (env : Env) (ctx : BotContext) (w : World) (telegramId : jsstring) :
  truthy (ctx_telegramId ctx) = Some telegramId ->
  db_findOne_error env (now w) = None ->
  store w !! telegramId = None ->
  handleWallet env ctx w
  = (Returned tt,
     appended w [EFindOne telegramId (inl None); EReply MsgNoAccount])
  /\ transferETHConversation env ctx w
     = (Returned tt,
        appended w [EFindOne telegramId (inl None); EReply MsgRegisterFirst])
  /\ transferSOLConversation env ctx w
     = (Returned tt,
        appended w [EFindOne telegramId (inl None); EReply MsgRegisterFirst]).
Proof.
  intros Hid Hdb Hnone.
  unfold handleWallet, transferETHConversation, transferSOLConversation.
  rewrite Hid. unfold appended.
  repeat split; exec; rewrite <- app_assoc; reflexivity.
Qed.

Lemma unregistered_sender_is_turned_away_witness :
  handleWallet Example.env_ok Example.ctx_alice (mkWorld ∅ [js "hi"] [])
  = (Returned tt,
     appended (mkWorld ∅ [js "hi"] [])
              [EFindOne (js "1001") (inl None); EReply MsgNoAccount])
  /\ transferETHConversation Example.env_ok Example.ctx_alice
       (mkWorld ∅ [js "hi"] [])
     = (Returned tt,
        appended (mkWorld ∅ [js "hi"] [])
                 [EFindOne (js "1001") (inl None); EReply MsgRegisterFirst])
  /\ transferSOLConversation Example.env_ok Example.ctx_alice
       (mkWorld ∅ [js "hi"] [])
     = (Returned tt,
        appended (mkWorld ∅ [js "hi"] [])
                 [EFindOne (js "1001") (inl None); EReply MsgRegisterFirst]).
Proof.
  apply (unregistered_sender_is_turned_away Example.env_ok Example.ctx_alice
           (mkWorld ∅ [js "hi"] []) (js "1001")); reflexivity.
Defined.

(** ** Guided transfers, step by step *)

Ltac norm_world :=
  unfold now, appended; repeat rewrite <- app_assoc; cbn [app];
  repeat rewrite length_app; cbn [length].

(** X3. A destination that [isAddress] refuses ends the ETH conversation
    at once: the invalid-address reply is sent, the handler returns, the
    text that follows in the inbox is left there, and neither the amount
    prompt nor the executor is reached. *)
Theorem invalid_eth_address_aborts
  (env : Env) (ctx : BotContext) (w : World)
  (telegramId : jsstring) (user : User)
  (destAddress : jsstring) (rest : list jsstring) :
  truthy (ctx_telegramId ctx) = Some telegramId ->
  db_findOne_error env (now w) = None ->
  store w !! telegramId = Some user ->
  inbox w = destAddress :: rest ->
  isAddress env destAddress = false ->
  transferETHConversation env ctx w
  = (Returned tt,
     mkWorld (db_meanwhile env (now w + 2) (store w)) rest
             (trace w ++ [ EFindOne telegramId (inl (Some user));
                           EReply (MsgAskAddress EVM);
                           EWaitFor (Some destAddress);
                           EReply (MsgInvalidAddress EVM) ])).
Proof.
  intros Hid Hdb Huser Hinbox Haddr.
  unfold transferETHConversation. rewrite Hid.
  exec; try (rewrite Haddr in *; discriminate).
  norm_world. reflexivity.
Qed.

Lemma invalid_eth_address_aborts_witness :
  transferETHConversation Example.env_ok Example.ctx_alice
    (mkWorld Example.registered [js "0x8ba1"; js "1"] [])
  = (Returned tt,
     mkWorld Example.registered [js "1"]
             [ EFindOne (js "1001") (inl (Some Example.alice));
               EReply (MsgAskAddress EVM);
               EWaitFor (Some (js "0x8ba1"));
               EReply (MsgInvalidAddress EVM) ]).
Proof.
  apply (invalid_eth_address_aborts Example.env_ok Example.ctx_alice
           (mkWorld Example.registered [js "0x8ba1"; js "1"] [])
           (js "1001") Example.alice (js "0x8ba1") [js "1"]); reflexivity.
Defined.

(** X4. A conversation that gets no reply stays suspended where it waits
    and has done nothing but prompt: with an empty inbox both conversations
    stop after the address prompt; with only an accepted ETH address in the
    inbox the ETH conversation stops after the amount prompt.  No progress
    message is sent and the executor is not entered. *)
Theorem conversation_waits_for_reply
  (env : Env) (ctx : BotContext) (w : World)
  (telegramId : jsstring) (user : User) :
  truthy (ctx_telegramId ctx) = Some telegramId ->
  db_findOne_error env (now w) = None ->
  store w !! telegramId = Some user ->
  (inbox w = [] ->
   transferETHConversation env ctx w
   = (Suspended,
      appended w [ EFindOne telegramId (inl (Some user));
                   EReply (MsgAskAddress EVM); EWaitFor None ])
   /\ transferSOLConversation env ctx w
      = (Suspended,
         appended w [ EFindOne telegramId (inl (Some user));
                      EReply (MsgAskAddress SOLANA); EWaitFor None ]))
  /\ (forall destAddress,
        inbox w = [destAddress] ->
        isAddress env destAddress = true ->
        transferETHConversation env ctx w
        = (Suspended,
           mkWorld (db_meanwhile env (now w + 2) (store w)) []
                   (trace w ++ [ EFindOne telegramId (inl (Some user));
                                 EReply (MsgAskAddress EVM);
                                 EWaitFor (Some destAddress);
                                 EReply (MsgAskAmount EVM);
                                 EWaitFor None ]))).
Proof.
  intros Hid Hdb Huser. split.
  - intros Hinbox.
    unfold transferETHConversation, transferSOLConversation. rewrite Hid.
    split; exec; norm_world;
      match goal with H : inbox _ = [] |- _ => rewrite ?H end; reflexivity.
  - intros destAddress Hinbox Haddr.
    unfold transferETHConversation. rewrite Hid.
    exec; try (rewrite Haddr in *; discriminate).
    norm_world. reflexivity.
Qed.

Lemma conversation_waits_for_reply_witness :
  transferETHConversation Example.env_ok Example.ctx_alice
    (mkWorld Example.registered [] [])
  = (Suspended,
     appended (mkWorld Example.registered [] [])
              [ EFindOne (js "1001") (inl (Some Example.alice));
                EReply (MsgAskAddress EVM); EWaitFor None ])
  /\ transferSOLConversation Example.env_ok Example.ctx_alice
       (mkWorld Example.registered [] [])
     = (Suspended,
        appended (mkWorld Example.registered [] [])
                 [ EFindOne (js "1001") (inl (Some Example.alice));
                   EReply (MsgAskAddress SOLANA); EWaitFor None ]).
Proof.
  destruct (conversation_waits_for_reply Example.env_ok Example.ctx_alice
              (mkWorld Example.registered [] []) (js "1001") Example.alice)
    as [Hempty _]; try reflexivity.
  apply Hempty. reflexivity.
Defined.

(** ** What the handlers never do *)

(** X5. One transaction attempt per session at most: whatever the
    collaborators answer, a transfer conversation asks the signer to sign
    and broadcast at most once (it never retries), and the provisioning and
    display handlers never enter the executor at all. *)
Theorem at_most_one_signature (env : Env) (ctx : BotContext) (w : World) :
  (length (List.filter is_sign (events (transferETHConversation env ctx) w))
   <= 1)%nat
  /\ (length (List.filter is_sign
                (events (transferSOLConversation env ctx) w)) <= 1)%nat
  /\ List.filter is_executor_call (events (handleStart env ctx) w) = []
  /\ List.filter is_executor_call (events (handleWallet env ctx) w) = [].
Proof.
  repeat split.
  - unfold events, transferETHConversation. exec; list_events; cbn; lia.
  - unfold events, transferSOLConversation. exec; list_events; cbn; lia.
  - unfold events, handleStart, handleWallet.
    exec; list_events; reflexivity.
  - unfold events, handleWallet. exec; list_events; reflexivity.
Qed.

(** X6. Each handler keeps to its duty.  The display handler neither writes
    to the store nor takes a message from the inbox, and it creates no
    wallet.  The provisioning handler takes no message from the inbox.  The
    transfer conversations never write an Account, never create a wallet
    and never query a balance. *)
Theorem handlers_keep_to_their_duty (env : Env) (ctx : BotContext) (w : World) :
  (store (snd (handleWallet env ctx w)) = store w
   /\ inbox (snd (handleWallet env ctx w)) = inbox w
   /\ forallb (fun ev => negb (is_save ev) && negb (is_binding_creation ev)
                         && negb (is_wait ev))
              (events (handleWallet env ctx) w) = true)
  /\ (inbox (snd (handleStart env ctx w)) = inbox w
      /\ forallb (fun ev => negb (is_wait ev))
                 (events (handleStart env ctx) w) = true)
  /\ forallb (fun ev => negb (is_save ev) && negb (is_binding_creation ev)
                        && negb (is_balance ev))
             (events (transferETHConversation env ctx) w) = true
  /\ forallb (fun ev => negb (is_save ev) && negb (is_binding_creation ev)
                        && negb (is_balance ev))
             (events (transferSOLConversation env ctx) w) = true.
Proof.
  repeat split.
  - unfold handleWallet. exec; reflexivity.
  - unfold handleWallet. exec; reflexivity.
  - unfold events, handleWallet. exec; list_events; reflexivity.
  - unfold handleStart, handleWallet. exec; reflexivity.
  - unfold events, handleStart, handleWallet. exec; list_events; reflexivity.
  - unfold events, transferETHConversation. exec; list_events; reflexivity.
  - unfold events, transferSOLConversation. exec; list_events; reflexivity.
Qed.

(** ** What the signer is asked to sign *)

Ltac bool_facts :=
  repeat match goal with
         | H : negb _ = false |- _ => apply negb_false_iff in H
         | H : negb _ = true |- _ => apply negb_true_iff in H
         | H : _ || _ = false |- _ => apply orb_false_elim in H as [? ?]
         end.

Ltac by_answer :=
  match goal with
  | H : _ = ?r |- ?r = _ =>
      rewrite <- H; f_equal; rewrite ?length_app; cbn [length]; lia
  end.

(** Brings the moments of a run to the form [length (trace w) + k]. *)
Ltac norm_times :=
  unfold now in *; repeat rewrite length_app in *; cbn [length] in *;
  repeat rewrite <- Nat.add_assoc in *; cbn [Nat.add] in *.

(** X7. The ETH signer only ever signs what the session collected, for the
    Account as the store holds it when the amount arrives.  A signing call
    recorded in an ETH session run by the plugin carries the EVM share of
    the Account found by the lookup of the run that executes, which reads
    the store after both waits and not the record of the start of the
    session; its destination is the first text of the session, which
    [isAddress] accepted, and its value is the second text, read by
    [Number] and multiplied by [10^18], which is an integer; that amount
    passed the check on [parseFloat]. *)
Theorem eth_signature_is_for_collected_input
  (env : Env) (ctx : BotContext) (w : World)
  (share to : jsstring) (value : Z) (tx : result jsstring) :
  ESign share to value tx
    ∈ events (session transferETHConversation env ctx) w ->
  exists telegramId user amount rest,
    truthy (ctx_telegramId ctx) = Some telegramId
    /\ db_meanwhile env (now w + 8) (db_meanwhile env (now w + 3) (store w))
       !! telegramId = Some user
    /\ share = evmUserShare user
    /\ inbox w = to :: amount :: rest
    /\ isAddress env to = true
    /\ isNaN (parseFloat env amount) = false
    /\ num_le0 (parseFloat env amount) = false
    /\ BigInt (num_mul (Number_ env amount) (pow10 18)) = inl value
    /\ tx = capsule_sendTransaction env (now w + 15) share to value.
Proof.
  run_session.
  all: exec; list_events; intros Hin; not_in_list Hin; bool_facts.
  all: norm_times; do 4 eexists; repeat split; eauto.
Qed.

Lemma eth_signature_is_for_collected_input_witness :
  exists telegramId user amount rest,
    truthy (ctx_telegramId Example.ctx_alice) = Some telegramId
    /\ db_meanwhile Example.env_account_rebound
         (now (Example.eth_session "0.05") + 8)
         (db_meanwhile Example.env_account_rebound
            (now (Example.eth_session "0.05") + 3)
            (store (Example.eth_session "0.05")))
       !! telegramId = Some user
    /\ js "evm-share-2" = evmUserShare user
    /\ inbox (Example.eth_session "0.05")
       = js "0x8ba1f109551bd432803012645ac136ddd64dba72" :: amount :: rest
    /\ isAddress Example.env_account_rebound
         (js "0x8ba1f109551bd432803012645ac136ddd64dba72") = true
    /\ isNaN (parseFloat Example.env_account_rebound amount) = false
    /\ num_le0 (parseFloat Example.env_account_rebound amount) = false
    /\ BigInt (num_mul (Number_ Example.env_account_rebound amount)
                 (pow10 18))
       = inl 50000000000000000
    /\ inl (js "0x5e9d")
       = capsule_sendTransaction Example.env_account_rebound
           (now (Example.eth_session "0.05") + 15) (js "evm-share-2")
           (js "0x8ba1f109551bd432803012645ac136ddd64dba72")
           50000000000000000.
Proof.
  apply (eth_signature_is_for_collected_input Example.env_account_rebound
           Example.ctx_alice (Example.eth_session "0.05")).
  vm_compute. in_list.
Defined.

(** X8. The Solana signer only ever signs what the session collected, for
    the Account as the store holds it when the amount arrives.  A signing
    call recorded in a SOL session run by the plugin carries the Solana
    share of the Account found by the lookup of the run that executes; the
    payer is the key the stored Solana address of that Account decodes to,
    the recipient the key the first text decodes to, which lies on the
    curve, and the amount the second text read by [parseFloat], which
    passed the amount check, times [LAMPORTS_PER_SOL], which is a whole
    number of lamports; a blockhash was obtained just before.  The curve
    check inside the executor never fires in a session, since the
    conversation has made it already: once the executor has rebuilt the
    recipient key it always goes on to ask for a blockhash. *)
Theorem sol_signature_is_for_collected_input
  (env : Env) (ctx : BotContext) (w : World) :
  (forall share fromPubkey toPubkey lamports tx,
     ESolanaSign share fromPubkey toPubkey lamports tx
       ∈ events (session transferSOLConversation env ctx) w ->
     exists telegramId user destAddress amount rest blockhash whole,
       truthy (ctx_telegramId ctx) = Some telegramId
       /\ db_meanwhile env (now w + 8)
            (db_meanwhile env (now w + 3) (store w))
          !! telegramId = Some user
       /\ share = solanaUserShare user
       /\ PublicKey_decode env (solanaAddress user) = inl fromPubkey
       /\ inbox w = destAddress :: amount :: rest
       /\ PublicKey_decode env destAddress = inl toPubkey
       /\ isOnCurve env toPubkey = true
       /\ isNaN (parseFloat env amount) = false
       /\ num_le0 (parseFloat env amount) = false
       /\ lamports = num_mul LAMPORTS_PER_SOL (parseFloat env amount)
       /\ BigInt lamports = inl whole
       /\ solana_getLatestBlockhash env (now w + 18) = inl blockhash
       /\ tx = capsule_solana_sendTransaction env (now w + 19) share
                 fromPubkey toPubkey lamports)
  /\ (EConsoleLog "Recipient Public Key:"
        ∈ events (session transferSOLConversation env ctx) w ->
      exists blockhash,
        EGetLatestBlockhash blockhash
          ∈ events (session transferSOLConversation env ctx) w).
Proof.
  split.
  - intros share fromPubkey toPubkey lamports tx.
    run_session.
    all: exec; list_events; intros Hin; not_in_list Hin; bool_facts.
    all: norm_times; do 7 eexists; repeat split; eauto.
  - run_session.
    all: exec; list_events; intros Hin; not_in_list Hin; bool_facts;
      try congruence; eexists; in_list.
Qed.

Lemma sol_signature_is_for_collected_input_witness :
  exists telegramId user destAddress amount rest blockhash whole,
    truthy (ctx_telegramId Example.ctx_alice) = Some telegramId
    /\ db_meanwhile Example.env_account_rebound
         (now (Example.sol_session
                 "So11111111111111111111111111111111111111112" "0.5") + 8)
         (db_meanwhile Example.env_account_rebound
            (now (Example.sol_session
                    "So11111111111111111111111111111111111111112" "0.5") + 3)
            (store (Example.sol_session
                      "So11111111111111111111111111111111111111112" "0.5")))
       !! telegramId = Some user
    /\ js "sol-share-2" = solanaUserShare user
    /\ PublicKey_decode Example.env_account_rebound (solanaAddress user)
       = inl Example.alice_key
    /\ inbox (Example.sol_session
                "So11111111111111111111111111111111111111112" "0.5")
       = destAddress :: amount :: rest
    /\ PublicKey_decode Example.env_account_rebound destAddress
       = inl Example.alice_key
    /\ isOnCurve Example.env_account_rebound Example.alice_key = true
    /\ isNaN (parseFloat Example.env_account_rebound amount) = false
    /\ num_le0 (parseFloat Example.env_account_rebound amount) = false
    /\ Num (inject_Z 500000000)
       = num_mul LAMPORTS_PER_SOL
           (parseFloat Example.env_account_rebound amount)
    /\ BigInt (Num (inject_Z 500000000)) = inl whole
    /\ solana_getLatestBlockhash Example.env_account_rebound
         (now (Example.sol_session
                 "So11111111111111111111111111111111111111112" "0.5") + 18)
       = inl blockhash
    /\ inl (js "5VERv8")
       = capsule_solana_sendTransaction Example.env_account_rebound
           (now (Example.sol_session
                   "So11111111111111111111111111111111111111112" "0.5") + 19)
           (js "sol-share-2") Example.alice_key Example.alice_key
           (Num (inject_Z 500000000)).
Proof.
  destruct (sol_signature_is_for_collected_input Example.env_account_rebound
              Example.ctx_alice
              (Example.sol_session
                 "So11111111111111111111111111111111111111112" "0.5"))
    as [Hsign _].
  apply Hsign. vm_compute. in_list.
Defined.

(** ** How a transfer ends *)

(** Brings the answer [H] of a collaborator at a given moment to bear on the
    call the run made at that moment. *)
Ltac sync_time t t' H H' :=
  lazymatch t with
  | t' => fail
  | _ =>
      replace t with t' in H' by (rewrite ?length_app; cbn [length]; lia);
      rewrite H in H'; simplify_eq
  end.






(** ** The executors of [wallet.ts] *)

(** X11. [sendSolanaTransaction] hides the cause of a failure from its
    caller: whatever goes wrong inside it (a stored or a destination address
    that does not decode, a recipient off the curve, no blockhash, an amount
    that is no whole number of lamports, a signer that refuses), the error
    it throws is always the same fixed one, and the cause is the last thing
    it wrote to the error log.  It never leaves a conversation suspended,
    and it changes neither the store nor the inbox. *)
Theorem sendSolanaTransaction_hides_the_cause
  (env : Env) (user : User) (destAddress : jsstring) (amountInSOL : number)
  (w : World) (e : error) :
  fst (sendSolanaTransaction env user destAddress amountInSOL w) = Thrown e ->
  e = Error "Failed to send SOL transaction"
  /\ (exists cause,
        last (events (sendSolanaTransaction env user destAddress amountInSOL) w)
        = Some (EConsoleError "Error sending Solana transaction:" cause)
        /\ (PublicKey_decode env (solanaAddress user) = inr cause
            \/ PublicKey_decode env destAddress = inr cause
            \/ cause = Error "Invalid recipient public key."
            \/ EGetLatestBlockhash (inr cause)
                 ∈ events (sendSolanaTransaction env user destAddress
                             amountInSOL) w
            \/ BigInt (num_mul LAMPORTS_PER_SOL amountInSOL) = inr cause
            \/ exists share fromPubkey toPubkey lamports,
                 ESolanaSign share fromPubkey toPubkey lamports (inr cause)
                   ∈ events (sendSolanaTransaction env user destAddress
                               amountInSOL) w))
  /\ store (snd (sendSolanaTransaction env user destAddress amountInSOL w))
     = store w
  /\ inbox (snd (sendSolanaTransaction env user destAddress amountInSOL w))
     = inbox w.
Proof.
  unfold events.
  exec; intros Hthrown; simplify_eq; list_events.
  all: split; [reflexivity|]; split; [|split; reflexivity].
  all: eexists; split; [reflexivity|].
  all: first [ left; first [assumption | reflexivity]
             | right; left; first [assumption | reflexivity]
             | right; right; left; reflexivity
             | right; right; right; left; solve [in_list]
             | right; right; right; right; left; first [assumption | reflexivity]
             | right; right; right; right; right; do 4 eexists;
               solve [in_list] ].
Qed.

Lemma sendSolanaTransaction_hides_the_cause_witness :
  fst (sendSolanaTransaction Scenario.env_signer_down Example.alice
         (solanaAddress Example.alice) (Num (1 # 2))
         (mkWorld Example.registered [] []))
  = Thrown (Error "Failed to send SOL transaction")
  /\ store (snd (sendSolanaTransaction Scenario.env_signer_down Example.alice
                   (solanaAddress Example.alice) (Num (1 # 2))
                   (mkWorld Example.registered [] [])))
     = Example.registered.
Proof.
  split; [reflexivity|].
  destruct (sendSolanaTransaction_hides_the_cause Scenario.env_signer_down
              Example.alice (solanaAddress Example.alice) (Num (1 # 2))
              (mkWorld Example.registered [] [])
              (Error "Failed to send SOL transaction"))
    as (_ & _ & Hstore & _); [reflexivity|].
  exact Hstore.
Defined.

(** X12. [sendTransaction] passes the cause on: when it throws, the error is
    the one [BigInt] raised on the converted amount, in which case the
    signer was not called, or the one the signer answered with.  Nothing is
    written to the error log, and the store and the inbox are untouched. *)
Theorem sendTransaction_passes_the_cause_on
  (env : Env) (user : User) (amountInETH receiverAddress : jsstring)
  (w : World) (e : error) :
  fst (sendTransaction env user amountInETH receiverAddress w) = Thrown e ->
  (BigInt (num_mul (Number_ env amountInETH) (pow10 18)) = inr e
   /\ events (sendTransaction env user amountInETH receiverAddress) w
      = [ESendTransaction user amountInETH receiverAddress]
   \/ exists value,
        BigInt (num_mul (Number_ env amountInETH) (pow10 18)) = inl value
        /\ events (sendTransaction env user amountInETH receiverAddress) w
           = [ ESendTransaction user amountInETH receiverAddress;
               ESign (evmUserShare user) receiverAddress value (inr e) ])
  /\ store (snd (sendTransaction env user amountInETH receiverAddress w))
     = store w
  /\ inbox (snd (sendTransaction env user amountInETH receiverAddress w))
     = inbox w.
Proof.
  unfold events.
  exec; intros Hthrown; simplify_eq; list_events.
  all: split; [|split; reflexivity].
  - right. eexists. split; reflexivity.
  - left. split; reflexivity.
Qed.

Lemma sendTransaction_passes_the_cause_on_witness :
  events (sendTransaction Scenario.env_signer_down Example.alice (js "0.05")
            (js "0x8ba1f109551bd432803012645ac136ddd64dba72"))
         (mkWorld Example.registered [] [])
  = [ ESendTransaction Example.alice (js "0.05")
        (js "0x8ba1f109551bd432803012645ac136ddd64dba72");
      ESign (js "evm-share") (js "0x8ba1f109551bd432803012645ac136ddd64dba72")
        50000000000000000 (inr (Error "insufficient funds")) ].
Proof.
  destruct (sendTransaction_passes_the_cause_on Scenario.env_signer_down
              Example.alice (js "0.05")
              (js "0x8ba1f109551bd432803012645ac136ddd64dba72")
              (mkWorld Example.registered [] [])
              (Error "insufficient funds"))
    as ([[Hbig _]|(value & Hbig & Hevents)] & _); [reflexivity|..].
  - vm_compute in Hbig. discriminate.
  - vm_compute in Hbig. injection Hbig as <-. exact Hevents.
Defined.



(** A transfer of 1.5 lamports: the executor gets as far as the blockhash,
    the conversion of the amount throws, and nothing is signed. *)
Example transfer_sol_fractional_lamports :
  events (transferSOLConversation Example.env_ok Example.ctx_alice)
         (Example.sol_session
            "So11111111111111111111111111111111111111112" "0.0000000015")
  = [ EFindOne (js "1001") (inl (Some Example.alice));
      EReply (MsgAskAddress SOLANA);
      EWaitFor (Some (js "So11111111111111111111111111111111111111112"));
      EReply (MsgAskAmount SOLANA);
      EWaitFor (Some (js "0.0000000015"));
      EReply (MsgSending SOLANA (js "0.0000000015")
                (js "So11111111111111111111111111111111111111112"));
      ESendSolanaTransaction Example.alice
        (js "So11111111111111111111111111111111111111112")
        (Example.parseFloat (js "0.0000000015"));
      EConsoleLog "Solana Signer Address:";
      EConsoleLog "Sender Public Key:";
      EConsoleLog "Recipient Public Key:";
      EGetLatestBlockhash (inl (js "EkSnNWid2"));
      EConsoleError "Error sending Solana transaction:" (Error "RangeError");
      EConsoleError "Error sending SOL transaction:"
        (Error "Failed to send SOL transaction");
      EEditMessageText 5 (MsgSendFailed SOLANA) ].
Proof. vm_compute. reflexivity. Qed.

(** ** Provisioning *)

(** X14. Provisioning never disturbs an existing Account, and it keeps the
    collection well formed: whatever the collaborators answer, every Account
    the store held before a run of [handleStart] is still there unchanged
    after it, and if every Account was filed under its own [telegramId] with
    all six fields present, that is still so afterwards. *)
Theorem handleStart_preserves_accounts
  (env : Env) (ctx : BotContext) (w : World) :
  (forall k u,
     store w !! k = Some u ->
     store (snd (handleStart env ctx w)) !! k = Some u)
  /\ ((forall k u,
         store w !! k = Some u ->
         telegramId u = k /\ userSchema_valid u = true) ->
      forall k u,
        store (snd (handleStart env ctx w)) !! k = Some u ->
        telegramId u = k /\ userSchema_valid u = true).
Proof.
  split.
  - intros k u Hk. revert Hk.
    unfold handleStart, handleWallet.
    exec; intros Hk; try assumption.
    all: rewrite lookup_insert_ne; [assumption|congruence].
  - intros Hinv k u. 
    unfold handleStart, handleWallet.
    exec; intros Hk; try (apply Hinv; assumption).
    all: bool_facts;
      match goal with
      | H : <[?i := _]> _ !! ?j = Some _ |- _ =>
          destruct (decide (i = j)) as [<-|Hne];
          [ rewrite lookup_insert_eq in H; simplify_eq; split; [reflexivity|assumption]
          | rewrite lookup_insert_ne in H by assumption; apply Hinv; assumption ]
      end.
Qed.

Lemma handleStart_preserves_accounts_witness :
  store (snd (handleStart Example.env_ok
                (mkContext (Some (mkFrom 2002 None)))
                (mkWorld Example.registered [] []))) !! js "1001"
  = Some Example.alice.
Proof.
  destruct (handleStart_preserves_accounts Example.env_ok
              (mkContext (Some (mkFrom 2002 None)))
              (mkWorld Example.registered [] [])) as [Hkept _].
  apply Hkept. reflexivity.
Defined.

Lemma truthy_Some (s : option jsstring) (x : jsstring) :
  truthy s = Some x -> s = Some x /\ x <> [].
Proof.
  unfold truthy, falsy. destruct s as [[|c s]|]; intros H; simplify_eq.
  split; [reflexivity|discriminate].
Qed.

Lemma telegramId_of_sender (ctx : BotContext) (x : jsstring) :
  truthy (ctx_telegramId ctx) = Some x ->
  exists f, ctx_from ctx = Some f /\ x = Z_toString (id f).
Proof.
  intros H. apply truthy_Some in H as [H _].
  unfold ctx_telegramId in H. destruct (ctx_from ctx) as [f|]; cbn in H;
    simplify_eq.
  exists f. split; reflexivity.
Qed.

(** X15. An Account is only ever written for the sender of the message, and
    only when the lookup found none: the record [handleStart] hands to
    [save] is filed under the decimal form of the sender's id, its username
    is the sender's username or, when that is missing or empty, the id
    again, and both wallets were created just before under the one
    identifier [telegramId@DOMAIN]. *)
Theorem account_is_written_for_the_sender
  (env : Env) (ctx : BotContext) (w : World) (u : User) (saved : result unit) :
  ESave u saved ∈ events (handleStart env ctx) w ->
  exists f evm sol,
    ctx_from ctx = Some f
    /\ telegramId u = Z_toString (id f)
    /\ username u = default (telegramId u) (truthy (from_username f))
    /\ username u <> []
    /\ store w !! telegramId u = None
    /\ List.filter is_binding_creation (events (handleStart env ctx) w)
       = [ ECreateWalletPreGen EVM (capsule_identifier env (telegramId u))
             (inl evm);
           ECreateWalletPreGen SOLANA (capsule_identifier env (telegramId u))
             (inl sol) ].
Proof.
  unfold events, handleStart, handleWallet.
  exec; list_events; intros Hin; not_in_list Hin.
  all: match goal with
       | H : truthy (ctx_telegramId _) = Some _ |- _ =>
           pose proof (truthy_Some _ _ H) as [_ Hne];
           apply telegramId_of_sender in H as (f & Hf & ->)
       end.
  all: exists f; do 2 eexists; cbn [telegramId username].
  all: unfold ctx_username, ctx_telegramId, or_else, truthy; rewrite Hf;
    cbn [mbind option_bind fmap option_fmap option_map].
  all: repeat split; try assumption; try reflexivity.
  all: destruct (from_username f) as [[|c s]|]; cbn; try discriminate;
    try reflexivity; try assumption.
Qed.

Lemma account_is_written_for_the_sender_witness :
  exists f evm sol,
    ctx_from Scenario.ctx_anonymous = Some f
    /\ js "1001" = Z_toString (id f)
    /\ js "1001" = default (js "1001") (truthy (from_username f))
    /\ js "1001" <> []
    /\ store (mkWorld ∅ [] []) !! js "1001" = None
    /\ List.filter is_binding_creation
         (events (handleStart Example.env_ok Scenario.ctx_anonymous)
                 (mkWorld ∅ [] []))
       = [ ECreateWalletPreGen EVM
             (capsule_identifier Example.env_ok (js "1001")) (inl evm);
           ECreateWalletPreGen SOLANA
             (capsule_identifier Example.env_ok (js "1001")) (inl sol) ].
Proof.
  apply (account_is_written_for_the_sender Example.env_ok
           Scenario.ctx_anonymous (mkWorld ∅ [] [])
           (mkUser (js "1001") (js "1001")
              (evmAddress Example.alice) (js "evm-share")
              (solanaAddress Example.alice) (js "sol-share"))
           (inl tt)).
  vm_compute. in_list.
Defined.

(** X16. Wallets are created in a fixed order and for the sender only.  A
    wallet creation recorded in a run of [handleStart] is for a sender
    whose lookup found no Account; it comes after the progress message and
    uses the identifier [telegramId@DOMAIN]; the EVM wallet is asked for
    first, and the Solana wallet only once the provider has answered the
    EVM request with a wallet; no run asks for more than these two. *)
Theorem wallets_are_created_in_order
  (env : Env) (ctx : BotContext) (w : World)
  (type : WalletType) (identifier : jsstring) (created : result Pregen) :
  ECreateWalletPreGen type identifier created
    ∈ events (handleStart env ctx) w ->
  exists f evm_created,
    ctx_from ctx = Some f
    /\ identifier = capsule_identifier env (Z_toString (id f))
    /\ store w !! Z_toString (id f) = None
    /\ events (handleStart env ctx) w !! 1%nat = Some (EReply MsgGenerating)
    /\ events (handleStart env ctx) w !! 2%nat
       = Some (ECreateWalletPreGen EVM identifier evm_created)
    /\ (type = EVM -> created = evm_created)
    /\ (type = SOLANA ->
        (exists evm, evm_created = inl evm)
        /\ events (handleStart env ctx) w !! 3%nat
           = Some (ECreateWalletPreGen SOLANA identifier created))
    /\ (length (List.filter is_binding_creation
                  (events (handleStart env ctx) w)) <= 2)%nat.
Proof.
  unfold events, handleStart, handleWallet.
  exec; list_events; intros Hin; not_in_list Hin.
  all: match goal with
       | H : truthy (ctx_telegramId _) = Some _ |- _ =>
           apply telegramId_of_sender in H as (f & Hf & ->)
       end.
  all: exists f; eexists; unfold capsule_identifier.
  all: repeat split; try assumption; try reflexivity; try discriminate;
    try (eexists; reflexivity); cbn; lia.
Qed.

Lemma wallets_are_created_in_order_witness :
  exists f evm_created,
    ctx_from Example.ctx_alice = Some f
    /\ capsule_identifier Example.env_solana_creation_fails (js "1001")
       = capsule_identifier Example.env_solana_creation_fails
           (Z_toString (id f))
    /\ store (mkWorld ∅ [] []) !! Z_toString (id f) = None
    /\ events (handleStart Example.env_solana_creation_fails Example.ctx_alice)
              (mkWorld ∅ [] []) !! 1%nat
       = Some (EReply MsgGenerating)
    /\ events (handleStart Example.env_solana_creation_fails Example.ctx_alice)
              (mkWorld ∅ [] []) !! 2%nat
       = Some (ECreateWalletPreGen EVM
                 (capsule_identifier Example.env_solana_creation_fails
                    (js "1001"))
                 evm_created)
    /\ (SOLANA = EVM -> inr (Error "503") = evm_created)
    /\ (SOLANA = SOLANA ->
        (exists evm, evm_created = inl evm)
        /\ events (handleStart Example.env_solana_creation_fails
                     Example.ctx_alice)
                  (mkWorld ∅ [] []) !! 3%nat
           = Some (ECreateWalletPreGen SOLANA
                     (capsule_identifier Example.env_solana_creation_fails
                        (js "1001"))
                     (inr (Error "503"))))
    /\ (length (List.filter is_binding_creation
                  (events (handleStart Example.env_solana_creation_fails
                             Example.ctx_alice)
                          (mkWorld ∅ [] []))) <= 2)%nat.
Proof.
  apply (wallets_are_created_in_order Example.env_solana_creation_fails
           Example.ctx_alice (mkWorld ∅ [] []) SOLANA
           (capsule_identifier Example.env_solana_creation_fails (js "1001"))
           (inr (Error "503"))).
  vm_compute. in_list.
Defined.

Lemma digits_inj (n m : N) : digits n = digits m -> n = m.
Proof.
  intros H.
  destruct (digits_spec n) as (_ & _ & Hn).
  destruct (digits_spec m) as (_ & _ & Hm).
  rewrite H in Hn. rewrite Hn in Hm. lia.
Qed.

Lemma digits_not_signed (n : N) (s : jsstring) : digits n <> 45%N :: s.
Proof.
  intros H. destruct (digits_spec n) as (_ & Hall & _).
  rewrite H in Hall. discriminate.
Qed.

Lemma Z_toString_inj (a b : Z) : Z_toString a = Z_toString b -> a = b.
Proof.
  unfold Z_toString.
  destruct (Z.ltb_spec a 0) as [Ha|Ha], (Z.ltb_spec b 0) as [Hb|Hb];
    intros Heq.
  - injection Heq as Hd. apply digits_inj in Hd. lia.
  - symmetry in Heq. apply digits_not_signed in Heq. contradiction.
  - apply digits_not_signed in Heq. contradiction.
  - apply digits_inj in Heq. lia.
Qed.

(** X17. No two senders share an Account key or a custody identifier:
    distinct sender ids have distinct decimal forms, hence distinct
    [telegramId]s, and the identifiers [generateAccount] and
    [generateSolanaAccount] build from them differ as well. *)
Theorem custody_identifier_is_per_sender (env : Env) (a b : Z) :
  a <> b ->
  Z_toString a <> Z_toString b
  /\ capsule_identifier env (Z_toString a)
     <> capsule_identifier env (Z_toString b).
Proof.
  intros Hne. split.
  - intros H. apply Hne, Z_toString_inj, H.
  - unfold capsule_identifier. intros H.
    apply app_inv_tail in H. apply Hne, Z_toString_inj, H.
Qed.

Lemma custody_identifier_is_per_sender_witness :
  Z_toString 1001 <> Z_toString (-1001)
  /\ capsule_identifier Example.env_ok (Z_toString 1001)
     <> capsule_identifier Example.env_ok (Z_toString (-1001)).
Proof.
  apply (custody_identifier_is_per_sender Example.env_ok 1001 (-1001)). lia.
Defined.

Ltac at_creation_time H :=
  unfold now, capsule_identifier in H;
  match type of H with
  | capsule_createWalletPreGen ?env ?t' ?type ?i = _ =>
      match goal with
      | H' : capsule_createWalletPreGen env ?t type i = _ |- _ =>
          sync_time t t' H H'
      end
  end.

(** X18. An Account that fails the schema is not stored.  When the provider
    creates both wallets with an address but one of the shares it hands
    back is empty, [save] rejects the record (every field of the schema is
    required): the store stays as it was, the error is logged, the user
    gets the creation-error reply, and the handler returns without showing
    any wallet.  The two wallets exist at the provider all the same. *)
Theorem incomplete_account_is_not_stored
  (env : Env) (ctx : BotContext) (w : World)
  (telegramId : jsstring) (evm sol : Pregen) :
  truthy (ctx_telegramId ctx) = Some telegramId ->
  db_findOne_error env (now w) = None ->
  store w !! telegramId = None ->
  capsule_createWalletPreGen env (now w + 2) EVM
    (capsule_identifier env telegramId) = inl evm ->
  capsule_createWalletPreGen env (now w + 3) SOLANA
    (capsule_identifier env telegramId) = inl sol ->
  falsy (wallet_address evm) = false ->
  falsy (wallet_address sol) = false ->
  userShare evm = [] \/ userShare sol = [] ->
  fst (handleStart env ctx w) = Returned tt
  /\ store (snd (handleStart env ctx w)) = store w
  /\ exists u,
       events (handleStart env ctx) w
       = [ EFindOne telegramId (inl None);
           EReply MsgGenerating;
           ECreateWalletPreGen EVM (capsule_identifier env telegramId)
             (inl evm);
           ECreateWalletPreGen SOLANA (capsule_identifier env telegramId)
             (inl sol);
           ESave u (inr (Error "ValidationError"));
           EConsoleError "" (Error "ValidationError");
           EReply MsgCreateError ].
Proof.
  intros Hid Hdb Hnone Hevm Hsol Haddr1 Haddr2 Hshare.
  unfold events, handleStart, handleWallet. rewrite Hid.
  exec; list_events.
  all: try at_creation_time Hevm; try at_creation_time Hsol.
  all: try (rewrite Haddr1, Haddr2 in *; discriminate).
  all: try (split; [reflexivity|split; [reflexivity|]];
            eexists; unfold capsule_identifier; reflexivity).
  all: exfalso;
    match goal with
    | H : negb (userSchema_valid _) = false |- _ =>
        rewrite negb_false_iff in H; unfold userSchema_valid in H;
        cbn -[js] in H; rewrite !andb_true_iff in H;
        destruct Hshare as [Hs|Hs]; rewrite Hs in H; intuition discriminate
    end.
Qed.

Lemma incomplete_account_is_not_stored_witness :
  fst (handleStart Scenario.env_no_solana_share Example.ctx_alice
         (mkWorld ∅ [] [])) = Returned tt
  /\ store (snd (handleStart Scenario.env_no_solana_share Example.ctx_alice
                   (mkWorld ∅ [] []))) = ∅
  /\ exists u,
       events (handleStart Scenario.env_no_solana_share Example.ctx_alice)
              (mkWorld ∅ [] [])
       = [ EFindOne (js "1001") (inl None);
           EReply MsgGenerating;
           ECreateWalletPreGen EVM
             (capsule_identifier Scenario.env_no_solana_share (js "1001"))
             (inl (mkPregen (Some (evmAddress Example.alice))
                     (js "evm-share")));
           ECreateWalletPreGen SOLANA
             (capsule_identifier Scenario.env_no_solana_share (js "1001"))
             (inl (mkPregen (Some (solanaAddress Example.alice)) []));
           ESave u (inr (Error "ValidationError"));
           EConsoleError "" (Error "ValidationError");
           EReply MsgCreateError ].
Proof.
  apply (incomplete_account_is_not_stored Scenario.env_no_solana_share
           Example.ctx_alice (mkWorld ∅ [] []) (js "1001")
           (mkPregen (Some (evmAddress Example.alice)) (js "evm-share"))
           (mkPregen (Some (solanaAddress Example.alice)) []));
    try reflexivity.
  right. reflexivity.
Defined.

(** ** Messages and the inbox *)

(** X19. A handler only ever edits a progress message of its own run: every
    edit recorded in a run of [handleStart] targets the message that said
    the wallets are being generated, and every edit recorded in a run of a
    transfer conversation targets the message that said the transfer is
    being sent.  [handleWallet] edits nothing. *)
Theorem edits_target_the_progress_message
  (env : Env) (ctx : BotContext) (w : World) (message_id : nat) (m : message) :
  (EEditMessageText message_id m ∈ events (handleStart env ctx) w ->
   trace (snd (handleStart env ctx w)) !! message_id
   = Some (EReply MsgGenerating)
   /\ (now w <= message_id)%nat)
  /\ (EEditMessageText message_id m
        ∈ events (transferETHConversation env ctx) w ->
      (exists amount destAddress,
         trace (snd (transferETHConversation env ctx w)) !! message_id
         = Some (EReply (MsgSending EVM amount destAddress)))
      /\ (now w <= message_id)%nat)
  /\ (EEditMessageText message_id m
        ∈ events (transferSOLConversation env ctx) w ->
      (exists amount destAddress,
         trace (snd (transferSOLConversation env ctx w)) !! message_id
         = Some (EReply (MsgSending SOLANA amount destAddress)))
      /\ (now w <= message_id)%nat)
  /\ EEditMessageText message_id m ∉ events (handleWallet env ctx) w.
Proof.
  split; [|split; [|split]].
  - unfold events, handleStart, handleWallet.
    exec; list_events; intros Hin; not_in_list Hin.
    all: split; [|rewrite ?length_app; cbn [length]; lia].
    all: repeat rewrite <- app_assoc; cbn [app].
    all: rewrite lookup_app_r by (rewrite ?length_app; cbn [length]; lia).
    all: match goal with
         | |- _ !! ?k = _ =>
             replace k with 1%nat by (rewrite ?length_app; cbn [length]; lia)
         end; reflexivity.
  - unfold events, transferETHConversation.
    exec; list_events; intros Hin; not_in_list Hin.
    all: split; [|rewrite ?length_app; cbn [length]; lia].
    all: do 2 eexists.
    all: repeat rewrite <- app_assoc; cbn [app].
    all: rewrite lookup_app_r by (rewrite ?length_app; cbn [length]; lia).
    all: match goal with
         | |- _ !! ?k = _ =>
             replace k with 5%nat by (rewrite ?length_app; cbn [length]; lia)
         end; reflexivity.
  - unfold events, transferSOLConversation.
    exec; list_events; intros Hin; not_in_list Hin.
    all: split; [|rewrite ?length_app; cbn [length]; lia].
    all: do 2 eexists.
    all: repeat rewrite <- app_assoc; cbn [app].
    all: rewrite lookup_app_r by (rewrite ?length_app; cbn [length]; lia).
    all: match goal with
         | |- _ !! ?k = _ =>
             replace k with 5%nat by (rewrite ?length_app; cbn [length]; lia)
         end; reflexivity.
  - unfold events, handleWallet.
    exec; list_events; intros Hin; not_in_list Hin.
Qed.

Lemma edits_target_the_progress_message_witness :
  trace (snd (handleStart Example.env_ok Example.ctx_alice
                (mkWorld ∅ [] []))) !! 1%nat
  = Some (EReply MsgGenerating)
  /\ (now (mkWorld ∅ [] []) <= 1)%nat.
Proof.
  destruct (edits_target_the_progress_message Example.env_ok Example.ctx_alice
              (mkWorld ∅ [] []) 1%nat MsgCreated) as [Hstart _].
  apply Hstart. vm_compute. in_list.
Defined.

(** X20. A transfer conversation reads the inbox in order and takes at most
    two messages from it: what was delivered to it is a prefix of the inbox
    of at most two texts, and the rest is left for later.  It never waits
    without having asked: each wait comes right after the prompt for the
    address or for the amount. *)
Theorem inbox_is_read_in_order (env : Env) (ctx : BotContext) (w : World) :
  (exists k,
     (k <= 2)%nat
     /\ delivered (events (transferETHConversation env ctx) w)
        = take k (inbox w)
     /\ inbox (snd (transferETHConversation env ctx w)) = drop k (inbox w))
  /\ (exists k,
        (k <= 2)%nat
        /\ delivered (events (transferSOLConversation env ctx) w)
           = take k (inbox w)
        /\ inbox (snd (transferSOLConversation env ctx w)) = drop k (inbox w))
  /\ (forall before text after,
        events (transferETHConversation env ctx) w
        = before ++ EWaitFor text :: after
        \/ events (transferSOLConversation env ctx) w
           = before ++ EWaitFor text :: after ->
        exists chain,
          last before = Some (EReply (MsgAskAddress chain))
          \/ last before = Some (EReply (MsgAskAmount chain))).
Proof.
  split; [|split].
  - unfold events, transferETHConversation.
    exec; list_events;
      first [ exists 0%nat; split; [lia|split; reflexivity]
            | exists 1%nat; split; [lia|split; reflexivity]
            | exists 2%nat; split; [lia|split; reflexivity] ].
  - unfold events, transferSOLConversation.
    exec; list_events;
      first [ exists 0%nat; split; [lia|split; reflexivity]
            | exists 1%nat; split; [lia|split; reflexivity]
            | exists 2%nat; split; [lia|split; reflexivity] ].
  - intros before text after [H|H]; revert H.
    + unfold events, transferETHConversation.
      exec; list_events; intros H; split_at_event;
        eexists; first [left; reflexivity | right; reflexivity].
    + unfold events, transferSOLConversation.
      exec; list_events; intros H; split_at_event;
        eexists; first [left; reflexivity | right; reflexivity].
Qed.

(** ** Wallet display *)

(** X21. [handleWallet] only asks the chains about the sender's own stored
    addresses: a Base balance query is for the EVM address of the Account
    found under the sender's id, a Solana balance query is for the key the
    stored Solana address of that Account decodes to, and a run makes at
    most one query per chain. *)
Theorem balances_are_queried_for_the_sender
  (env : Env) (ctx : BotContext) (w : World) :
  (forall address wei,
     EGetBalance address wei ∈ events (handleWallet env ctx) w ->
     exists telegramId user,
       truthy (ctx_telegramId ctx) = Some telegramId
       /\ store w !! telegramId = Some user
       /\ address = evmAddress user
       /\ wei = base_getBalance env (now w + 2) address)
  /\ (forall key lamports,
        ESolanaGetBalance key lamports ∈ events (handleWallet env ctx) w ->
        exists telegramId user,
          truthy (ctx_telegramId ctx) = Some telegramId
          /\ store w !! telegramId = Some user
          /\ PublicKey_decode env (solanaAddress user) = inl key
          /\ lamports = solana_getBalance env (now w + 4) key)
  /\ (length (List.filter is_balance (events (handleWallet env ctx) w))
      <= 2)%nat.
Proof.
  split; [|split].
  - intros address wei. unfold events, handleWallet.
    exec; list_events; intros Hin; not_in_list Hin.
    all: do 2 eexists; repeat split; eauto; norm_world; by_answer.
  - intros key lamports. unfold events, handleWallet.
    exec; list_events; intros Hin; not_in_list Hin.
    all: do 2 eexists; repeat split; eauto; norm_world; by_answer.
  - unfold events, handleWallet. exec; list_events; cbn; lia.
Qed.

Lemma balances_are_queried_for_the_sender_witness :
  exists telegramId user,
    truthy (ctx_telegramId Example.ctx_alice) = Some telegramId
    /\ store (mkWorld Example.registered [] []) !! telegramId = Some user
    /\ evmAddress Example.alice = evmAddress user
    /\ inl 1500000000000000000
       = base_getBalance Example.env_ok
           (now (mkWorld Example.registered [] []) + 2)
           (evmAddress Example.alice).
Proof.
  destruct (balances_are_queried_for_the_sender Example.env_ok
              Example.ctx_alice (mkWorld Example.registered [] []))
    as [Hevm _].
  apply Hevm. vm_compute. in_list.
Defined.

(** ** From provisioning to service *)

(** What a handler does first for a sender who has an Account. *)
Lemma registered_sender_is_served
  (env : Env) (ctx : BotContext) (w : World)
  (telegramId : jsstring) (user : User) :
  truthy (ctx_telegramId ctx) = Some telegramId ->
  db_findOne_error env (now w) = None ->
  store w !! telegramId = Some user ->
  (exists rest,
     events (handleStart env ctx) w
     = EFindOne telegramId (inl (Some user))
       :: EReply MsgAlreadyRegistered :: rest)
  /\ (exists rest,
        events (handleWallet env ctx) w
        = EFindOne telegramId (inl (Some user))
          :: EReply (MsgWallets (evmAddress user) (solanaAddress user))
          :: rest)
  /\ (exists rest,
        events (transferETHConversation env ctx) w
        = EFindOne telegramId (inl (Some user))
          :: EReply (MsgAskAddress EVM) :: rest)
  /\ (exists rest,
        events (transferSOLConversation env ctx) w
        = EFindOne telegramId (inl (Some user))
          :: EReply (MsgAskAddress SOLANA) :: rest).
Proof.
  intros Hid Hdb Huser.
  unfold events, handleStart, handleWallet, transferETHConversation,
    transferSOLConversation.
  rewrite Hid.
  repeat split; exec; list_events; eexists; reflexivity.
Qed.

(** Where a successful write leaves the store. *)
Lemma saved_account_is_stored
  (env : Env) (ctx : BotContext) (w : World) (u : User) :
  ESave u (inl tt) ∈ events (handleStart env ctx) w ->
  truthy (ctx_telegramId ctx) = Some (telegramId u)
  /\ store (snd (handleStart env ctx w)) = <[telegramId u := u]> (store w)
  /\ inbox (snd (handleStart env ctx w)) = inbox w.
Proof.
  unfold events, handleStart, handleWallet.
  exec; list_events; intros Hin; not_in_list Hin.
  all: repeat split; reflexivity.
Qed.

(** X22. Provisioning and service compose: once [handleStart] has written
    an Account for a sender, the store answers a lookup of that sender with
    exactly that Account, and on the resulting world every handler treats
    the sender as registered: [handleStart] says so instead of creating
    wallets again, [handleWallet] shows the two stored addresses, and the
    transfer conversations ask for a destination. *)
Theorem provisioned_sender_is_registered
  (env : Env) (ctx : BotContext) (w : World) (u : User) :
  ESave u (inl tt) ∈ events (handleStart env ctx) w ->
  store (snd (handleStart env ctx w)) !! telegramId u = Some u
  /\ (db_findOne_error env (now (snd (handleStart env ctx w))) = None ->
      (exists rest,
         events (handleStart env ctx) (snd (handleStart env ctx w))
         = EFindOne (telegramId u) (inl (Some u))
           :: EReply MsgAlreadyRegistered :: rest)
      /\ (exists rest,
            events (handleWallet env ctx) (snd (handleStart env ctx w))
            = EFindOne (telegramId u) (inl (Some u))
              :: EReply (MsgWallets (evmAddress u) (solanaAddress u))
              :: rest)
      /\ (exists rest,
            events (transferETHConversation env ctx)
                   (snd (handleStart env ctx w))
            = EFindOne (telegramId u) (inl (Some u))
              :: EReply (MsgAskAddress EVM) :: rest)
      /\ (exists rest,
            events (transferSOLConversation env ctx)
                   (snd (handleStart env ctx w))
            = EFindOne (telegramId u) (inl (Some u))
              :: EReply (MsgAskAddress SOLANA) :: rest)).
Proof.
  intros Hsaved.
  apply saved_account_is_stored in Hsaved as (Hid & Hstore & _).
  assert (Hfound : store (snd (handleStart env ctx w)) !! telegramId u
                   = Some u).
  { rewrite Hstore. apply lookup_insert_eq. }
  split; [exact Hfound|].
  intros Hdb. apply registered_sender_is_served; assumption.
Qed.

Lemma provisioned_sender_is_registered_witness :
  store (snd (handleStart Example.env_ok Example.ctx_alice (mkWorld ∅ [] [])))
    !! js "1001"
  = Some Example.alice.
Proof.
  destruct (provisioned_sender_is_registered Example.env_ok Example.ctx_alice
              (mkWorld ∅ [] []) Example.alice)
    as [Hfound _]; [vm_compute; in_list | exact Hfound].
Defined.

(** Identifies the lookup [handleWallet] makes after a successful write with
    the moment [H] speaks about. *)
Ltac second_lookup H :=
  unfold now in H;
  match type of H with
  | db_findOne_error ?env ?t' = _ =>
      match goal with
      | H' : db_findOne_error env ?t = _ |- _ =>
          lazymatch t with
          | length (trace _) => fail
          | _ =>
              replace t with t' in H'
                by (rewrite ?length_app; cbn [length]; lia);
              rewrite H in H'
          end
      end
  end.

(** X23. A created Account can be reported as a failure.  The display that
    follows a successful write runs inside the same guarded block as the
    creation: when the lookup it starts with throws, [handleStart] logs the
    error and ends with the creation-error reply, although the Account is
    in the store and the progress message already says the wallets were
    created. *)
Theorem created_account_reported_as_failure
  (env : Env) (ctx : BotContext) (w : World) (u : User) (e : error) :
  ESave u (inl tt) ∈ events (handleStart env ctx) w ->
  db_findOne_error env (now w + 6) = Some e ->
  fst (handleStart env ctx w) = Returned tt
  /\ store (snd (handleStart env ctx w)) !! telegramId u = Some u
  /\ exists before,
       events (handleStart env ctx) w
       = before ++ [ ESave u (inl tt);
                     EEditMessageText (now w + 1) MsgCreated;
                     EFindOne (telegramId u) (inr e);
                     EConsoleError "" e;
                     EReply MsgCreateError ].
Proof.
  intros Hsaved Hdown.
  pose proof (saved_account_is_stored _ _ _ _ Hsaved) as (_ & Hstore & _).
  split; [|split].
  - revert Hsaved. unfold events, handleStart, handleWallet.
    exec; list_events; intros Hin; not_in_list Hin; try reflexivity.
    all: exfalso; second_lookup Hdown; congruence.
  - rewrite Hstore. apply lookup_insert_eq.
  - revert Hsaved. unfold events, handleStart, handleWallet.
    exec; list_events; intros Hin; not_in_list Hin.
    all: second_lookup Hdown; simplify_eq.
    all: norm_world; eexists [_; _; _; _]; reflexivity.
Qed.

Lemma created_account_reported_as_failure_witness :
  fst (handleStart Scenario.env_store_goes_down Example.ctx_alice
         (mkWorld ∅ [] [])) = Returned tt
  /\ store (snd (handleStart Scenario.env_store_goes_down Example.ctx_alice
                   (mkWorld ∅ [] []))) !! telegramId Example.alice
     = Some Example.alice
  /\ exists before,
       events (handleStart Scenario.env_store_goes_down Example.ctx_alice)
              (mkWorld ∅ [] [])
       = before ++ [ ESave Example.alice (inl tt);
                     EEditMessageText (now (mkWorld ∅ [] []) + 1) MsgCreated;
                     EFindOne (telegramId Example.alice)
                       (inr (Error "MongoNetworkError"));
                     EConsoleError "" (Error "MongoNetworkError");
                     EReply MsgCreateError ].
Proof.
  apply (created_account_reported_as_failure Scenario.env_store_goes_down
           Example.ctx_alice (mkWorld ∅ [] []) Example.alice
           (Error "MongoNetworkError")).
  - vm_compute. in_list.
  - reflexivity.
Defined.

(** X24. For a sender who has an Account, [handleStart] is the
    already-registered reply followed by a run of [handleWallet]: after the
    lookup and that reply it ends exactly as [handleWallet] does when
    started there, with the same outcome, the same messages and the same
    store. *)
Theorem handleStart_hands_over_to_handleWallet
  (env : Env) (ctx : BotContext) (w : World)
  (telegramId : jsstring) (user : User) :
  truthy (ctx_telegramId ctx) = Some telegramId ->
  db_findOne_error env (now w) = None ->
  store w !! telegramId = Some user ->
  handleStart env ctx w
  = handleWallet env ctx
      (appended (appended w [EFindOne telegramId (inl (Some user))])
                [EReply MsgAlreadyRegistered]).
Proof.
  intros Hid Hdb Huser.
  unfold handleStart. rewrite Hid.
  unfold mbind at 1, M_bind at 1, User_findOne at 1, call at 1.
  rewrite Hdb, Huser.
  reflexivity.
Qed.

Lemma handleStart_hands_over_to_handleWallet_witness :
  handleStart Example.env_ok Example.ctx_alice
    (mkWorld Example.registered [] [])
  = handleWallet Example.env_ok Example.ctx_alice
      (appended
         (appended (mkWorld Example.registered [] [])
                   [EFindOne (js "1001") (inl (Some Example.alice))])
         [EReply MsgAlreadyRegistered]).
Proof.
  apply (handleStart_hands_over_to_handleWallet Example.env_ok
           Example.ctx_alice (mkWorld Example.registered [] []) (js "1001")
           Example.alice); reflexivity.
Defined.

(** ** The two address checks *)

(** X25. The validator of [wallet.ts] is at least as strict as the check
    the single-chain send conversation makes inline: every string
    [isValidEthereumAddress] accepts starts with [0x] and has length 42, so
    the inline check accepts it as well. *)
Theorem validator_implies_inline_check (s : jsstring) :
  isValidEthereumAddress s = true -> legacy_address_check s = true.
Proof.
  intros H. apply isValidEthereumAddress_spec in H as (body & -> & Hlen & _).
  unfold legacy_address_check, startsWith.
  rewrite length_app, Hlen. reflexivity.
Qed.

Lemma validator_implies_inline_check_witness :
  legacy_address_check (js "0x8ba1f109551bd432803012645ac136ddd64dba72") = true.
Proof.
  apply (validator_implies_inline_check
           (js "0x8ba1f109551bd432803012645ac136ddd64dba72")).
  reflexivity.
Defined.
